(** * streamoly.py: a shallow embedding and its verified properties

    The dashboard script [streamoly.py] loads a venue table, sends one HTTP
    GET to a remote service, turns the CSV answer into map layers and shows
    them.  This development embeds the script function by function:

    - Python [str] values are [string]s (characters are code points 0..255);
    - Python [float] values are the kernel's binary64 floats ([PrimFloat]),
      so that division by zero, NaN and truncation behave as in CPython and
      NumPy;
    - the [params] dictionary is an association list in insertion order;
    - the libraries the script calls ([requests], [pandas.read_csv], the
      Streamlit widgets) are a record of oracles, [World];
    - Streamlit output and the outgoing request are events appended to a log,
      and exceptions are values of [exn] threaded by a small monad. *)

From Stdlib Require Import ZArith List String Ascii Bool Lia.
From Stdlib Require Import DecimalString DecimalNat DecimalZ.
From Stdlib Require Import Floats.
Import ListNotations.

Local Open Scope string_scope.
Local Open Scope Z_scope.

(* ================================================================== *)
(** * Python strings *)
(* ================================================================== *)

Module PyStr.

(** [str.isspace] on the code points below 256. *)
Definition is_space (c : ascii) : bool :=
  let n := nat_of_ascii c in
  ((9 <=? n) && (n <=? 13))%nat || ((28 <=? n) && (n <=? 32))%nat
  || (n =? 133)%nat || (n =? 160)%nat.

(** [s.lstrip(chars)] for a set of characters given as a predicate. *)
Fixpoint lstrip_by (p : ascii -> bool) (s : string) : string :=
  match s with
  | EmptyString => EmptyString
  | String c r => if p c then lstrip_by p r else s
  end.

(** [s.rstrip(chars)]: a character is dropped when it is in the set and
    everything after it was dropped too. *)
Fixpoint rstrip_by (p : ascii -> bool) (s : string) : string :=
  match s with
  | EmptyString => EmptyString
  | String c r =>
      match rstrip_by p r with
      | EmptyString => if p c then EmptyString else String c EmptyString
      | r' => String c r'
      end
  end.

(** [s.strip()] *)
Definition strip (s : string) : string := rstrip_by is_space (lstrip_by is_space s).

(** [s.lstrip("#")] *)
Definition lstrip_hash (s : string) : string :=
  lstrip_by (fun c => Ascii.eqb c "#") s.

(** [s[:n]] *)
Fixpoint prefix_to (n : nat) (s : string) : string :=
  match n, s with
  | O, _ => EmptyString
  | S _, EmptyString => EmptyString
  | S n', String c r => String c (prefix_to n' r)
  end.

(** [s[i:i+2]]; out-of-range bounds are clipped, as Python slices are. *)
Definition slice2 (i : nat) (s : string) : string := substring i 2 s.

(** [sep.join(items)] *)
Fixpoint join (sep : string) (items : list string) : string :=
  match items with
  | [] => EmptyString
  | [x] => x
  | x :: rest => x ++ sep ++ join sep rest
  end.

(** [str(i)] for a non-negative index, as the f-string [f"{i}"] prints it. *)
Definition str_of_nat (n : nat) : string := NilEmpty.string_of_uint (Nat.to_uint n).

(** [str(z)] for an integer. *)
Definition str_of_Z (z : Z) : string := NilZero.string_of_int (Z.to_int z).

(** The value of one base-16 digit. *)
Definition hex_val (c : ascii) : option Z :=
  let n := Z.of_nat (nat_of_ascii c) in
  if (48 <=? n) && (n <=? 57) then Some (n - 48)
  else if (97 <=? n) && (n <=? 102) then Some (n - 87)
  else if (65 <=? n) && (n <=? 70) then Some (n - 55)
  else None.

(** The digit part of an integer literal in base 16: digits, with single
    underscores allowed between two digits.  [prev] tells whether the
    previous character was a digit. *)
Fixpoint hex_digits (acc : Z) (prev : bool) (s : string) : option Z :=
  match s with
  | EmptyString => if prev then Some acc else None
  | String c r =>
      if Ascii.eqb c "_" then (if prev then hex_digits acc false r else None)
      else match hex_val c with
           | Some d => hex_digits (16 * acc + d) true r
           | None => None
           end
  end.

(** The white space [int] skips around a literal: the six characters of
    C's [isspace] and, above code point 127, what [str.isspace] accepts.
    The separators U+001C to U+001F, which [str.strip] removes, are not
    skipped. *)
Definition is_int_space (c : ascii) : bool :=
  let n := nat_of_ascii c in
  ((9 <=? n) && (n <=? 13))%nat || (n =? 32)%nat
  || (n =? 133)%nat || (n =? 160)%nat.

(** [int(s, 16)]: surrounding white space, an optional sign, an optional
    [0x] or [0X] prefix (one underscore may follow it), then the digits.
    [None] stands for the [ValueError] Python raises. *)
Definition int16 (s : string) : option Z :=
  let s1 := rstrip_by is_int_space (lstrip_by is_int_space s) in
  let '(neg, s2) :=
    match s1 with
    | String c r =>
        if Ascii.eqb c "+" then (false, r)
        else if Ascii.eqb c "-" then (true, r)
        else (false, s1)
    | EmptyString => (false, s1)
    end in
  let s3 :=
    match s2 with
    | String z (String x r) =>
        if Ascii.eqb z "0" && (Ascii.eqb x "x" || Ascii.eqb x "X")
        then match r with
             | String u r' => if Ascii.eqb u "_" then r' else r
             | EmptyString => r
             end
        else s2
    | _ => s2
    end in
  match hex_digits 0 false s3 with
  | Some v => Some (if neg then - v else v)
  | None => None
  end.

End PyStr.

(* ================================================================== *)
(** * [hex_to_rgb] *)
(* ================================================================== *)

(** [tuple(int(hex_color[i : i + 2], 16) for i in (0, 2, 4))] after
    [hex_color = hex_color.lstrip("#")]; [None] when one conversion raises. *)
Definition hex_to_rgb (hex_color : string) : option (Z * Z * Z) :=
  let hex_color := PyStr.lstrip_hash hex_color in
  match PyStr.int16 (PyStr.slice2 0 hex_color),
        PyStr.int16 (PyStr.slice2 2 hex_color),
        PyStr.int16 (PyStr.slice2 4 hex_color) with
  | Some r, Some g, Some b => Some (r, g, b)
  | _, _, _ => None
  end.

(* ================================================================== *)
(** * Python dictionaries, exceptions and the event log *)
(* ================================================================== *)

(** A [dict] in insertion order.  [d[k] = v] overwrites the value of a key
    that is present (keeping its position) and appends a new key. *)
Definition dict (V : Type) : Type := list (string * V).

Fixpoint dict_set {V : Type} (d : dict V) (k : string) (v : V) : dict V :=
  match d with
  | [] => [(k, v)]
  | (k', v') :: d' =>
      if String.eqb k' k then (k', v) :: d' else (k', v') :: dict_set d' k v
  end.

Fixpoint dict_get {V : Type} (d : dict V) (k : string) : option V :=
  match d with
  | [] => None
  | (k', v') :: d' => if String.eqb k' k then Some v' else dict_get d' k
  end.

Definition dict_keys {V : Type} (d : dict V) : list string := map fst d.

(** The values the script puts in the query parameters. *)
Inductive pyval : Type :=
| PStr (s : string)
| PInt (z : Z).

(** The exceptions that can travel through the script.  Each carries what
    [str(e)] prints. *)
Inductive exn : Type :=
| HTTPError (msg : string)          (* requests: raise_for_status *)
| RequestException (msg : string)   (* requests: transport failure *)
| EmptyDataError (msg : string)     (* pandas.errors.EmptyDataError *)
| ParserError (msg : string)        (* pandas.errors.ParserError *)
| ValueError (msg : string)
| OverflowError (msg : string)
| TypeError (msg : string)
| KeyError (key : string)
| OtherError (msg : string).        (* raised by a rendering call *)

(** [str(e)]; a [KeyError] prints the repr of its key. *)
Definition exn_str (e : exn) : string :=
  match e with
  | HTTPError m | RequestException m | EmptyDataError m | ParserError m
  | ValueError m | OverflowError m | TypeError m | OtherError m => m
  | KeyError k => "'" ++ k ++ "'"
  end.

(** What [requests.get] returns. *)
Record Response : Type := {
  status_code : Z;
  reason : string;
  url : string;
  text : string
}.

(** [response.raise_for_status()] of the requests library. *)
Definition raise_for_status (r : Response) : option exn :=
  let c := status_code r in
  if (400 <=? c) && (c <? 500) then
    Some (HTTPError (PyStr.str_of_Z c ++ " Client Error: " ++ reason r
                       ++ " for url: " ++ url r))
  else if (500 <=? c) && (c <? 600) then
    Some (HTTPError (PyStr.str_of_Z c ++ " Server Error: " ++ reason r
                       ++ " for url: " ++ url r))
  else None.

(* ================================================================== *)
(** * Floats *)
(* ================================================================== *)

Definition nan_msg : string := "cannot convert float NaN to integer".

Module PyFloat.

(** [int(x)]: truncation toward zero; NaN and the infinities raise. *)
Definition to_int (x : float) : exn + Z :=
  match Prim2SF x with
  | S754_nan => inl (ValueError nan_msg)
  | S754_infinity _ => inl (OverflowError "cannot convert float infinity to integer")
  | S754_zero _ => inr 0
  | S754_finite s m e => inr (cond_Zopp s (Z.shiftl (Zpos m) e))
  end.

(** [float(z)] for an integer: the nearest binary64 number. *)
Definition of_Z (z : Z) : float := SF2Prim (binary_normalize prec emax z 0 false).

(** [round(x)] to an integer: the nearest one, ties going to the even one.
    Used only to phrase the specification's formula. *)
Definition round_half_even (x : float) : exn + Z :=
  match Prim2SF x with
  | S754_nan => inl (ValueError nan_msg)
  | S754_infinity _ => inl (OverflowError "cannot convert float infinity to integer")
  | S754_zero _ => inr 0
  | S754_finite s m e =>
      if 0 <=? e then inr (cond_Zopp s (Z.shiftl (Zpos m) e))
      else
        let den := Z.shiftl 1 (- e) in
        let q := Zpos m / den in
        let r2 := 2 * (Zpos m mod den) in
        let q' := if r2 <? den then q
                  else if den <? r2 then q + 1
                  else if Z.even q then q else q + 1 in
        inr (cond_Zopp s q')
  end.

(** [Series.max()]: missing values (NaN) are skipped; NaN when nothing is
    left. *)
Definition nanmax (l : list float) : float :=
  match filter (fun x => negb (is_nan x)) l with
  | [] => nan
  | x :: r => fold_left (fun a y => if (a <? y)%float then y else a) r x
  end.

(** [Series.mean()]: the missing values (NaN) count as zero in the sum and
    are left out of the count, and the mean of nothing is NaN.  Below eight
    values numpy adds from left to right; from eight values on it adds by
    blocks and pairs, which is [np_sum]. *)
Definition mean (np_sum : list float -> float) (l : list float) : float :=
  let filled := map (fun x => if is_nan x then zero else x) l in
  let the_sum :=
    if (List.length l <? 8)%nat then fold_left add filled zero else np_sum filled in
  match filter (fun x => negb (is_nan x)) l with
  | [] => nan
  | xs => (the_sum / of_Z (Z.of_nat (List.length xs)))%float
  end.

End PyFloat.

(* ================================================================== *)
(** * Tables, layers and the outside world *)
(* ================================================================== *)

(** One value of a pandas column. *)
Inductive cell : Type :=
| CStr (s : string)
| CInt (z : Z)
| CFloat (x : float)
| CBool (b : bool)
| CList (l : list Z).

(** A [DataFrame]: its columns in order, each with one cell per row. *)
Definition DataFrame : Type := dict (list cell).

(** One row of the venue table [olympicsst/2024_paris_iso.csv]. *)
Record VenueRecord : Type := {
  Nom_Site : string;
  Code_Site : string;
  latitude : float;
  longitude : float
}.

(** [pdk.Layer("H3HexagonLayer", data, ...)] *)
Record HexLayer : Type := {
  hex_data : DataFrame;
  hex_pickable : bool;
  hex_stroked : bool;
  hex_filled : bool;
  hex_extruded : bool;
  get_hexagon : string;
  get_fill_color : string;
  get_elevation : string;
  elevation_scale : Z
}.

(** [pdk.Layer("ScatterplotLayer", scatter_data, ...)] *)
Record ScatterLayer : Type := {
  scatter_data : list VenueRecord;
  get_position : list string;
  get_color : list Z;
  get_radius : Z;
  scatter_pickable : bool
}.

(** [pdk.ViewState(...)] *)
Record ViewState : Type := {
  vs_latitude : float;
  vs_longitude : float;
  zoom : Z;
  pitch : Z
}.

(** [pdk.Deck(...)] *)
Record Deck : Type := {
  layers : HexLayer * ScatterLayer;
  initial_view_state : ViewState;
  tooltip : string
}.

(** What the script shows or sends, in order. *)
Inductive event : Type :=
| StTitle (s : string)
| StSidebarHeader (s : string)
| StSubheader (s : string)
| StWrite (s : string)
| StError (s : string)
| HttpGet (target : string) (params : dict pyval)
| StPydeckChart (d : Deck).

(** The libraries and services the script talks to. *)
Record World : Type := {
  (** [pd.read_csv(CSV_PATH)] on the venue table *)
  venue_table : exn + list VenueRecord;
  (** [requests.get(url, params=params)] *)
  requests_get : string -> dict pyval -> exn + Response;
  (** [pd.read_csv(StringIO(content))] *)
  read_csv : string -> exn + DataFrame;
  (** [float(s)] on a string, [None] when it raises *)
  float_of_str : string -> option float;
  (** [str(x)] on a float *)
  str_of_float : float -> string;
  (** whether [.astype(str)] leaves a missing value missing, as pandas does
      from 3.0 on, or prints it, as pandas did before *)
  str_keeps_missing : bool;
  (** [numpy.sum] of eight values or more *)
  np_sum : list float -> float;
  (** [st.pydeck_chart(deck)], which may raise *)
  pydeck_chart : Deck -> option exn
}.

(** The values the sidebar widgets return on one run of the script. *)
Record Inputs : Type := {
  selected_stadiums : list string;
  travel_time : Z;
  travel_mode : string;
  button : bool
}.

(* ================================================================== *)
(** * The monad: an event log and exceptions *)
(* ================================================================== *)

(** A computation appends to the log and ends with a value or with a raised
    exception; what was logged before a raise stays logged. *)
Definition M (A : Type) : Type := list event -> (exn + A) * list event.

Definition ret {A : Type} (a : A) : M A := fun log => (inr a, log).

Definition bind {A B : Type} (m : M A) (k : A -> M B) : M B :=
  fun log =>
    match m log with
    | (inr a, log') => k a log'
    | (inl e, log') => (inl e, log')
    end.

Definition raise {A : Type} (e : exn) : M A := fun log => (inl e, log).

Definition emit (ev : event) : M unit := fun log => (inr tt, (log ++ [ev])%list).

(** A library call that returns or raises. *)
Definition lift {A : Type} (r : exn + A) : M A := fun log => (r, log).

(** [try: m except Exception as e: h e] *)
Definition try_except {A : Type} (m : M A) (h : exn -> M A) : M A :=
  fun log =>
    match m log with
    | (inr a, log') => (inr a, log')
    | (inl e, log') => h e log'
    end.

Declare Scope py_scope.
Delimit Scope py_scope with py.
Notation "x <- m ;; k" := (bind m (fun x => k))
  (at level 61, m at next level, right associativity) : py_scope.
Notation "m ;; k" := (bind m (fun _ => k))
  (at level 61, right associativity) : py_scope.
Local Open Scope py_scope.

(** [mapM] over the sum type: the first element that raises decides. *)
Fixpoint traverse {A B : Type} (f : A -> exn + B) (l : list A) : exn + list B :=
  match l with
  | [] => inr []
  | a :: r =>
      match f a with
      | inl e => inl e
      | inr b => match traverse f r with
                 | inl e => inl e
                 | inr bs => inr (b :: bs)
                 end
      end
  end.

(* ================================================================== *)
(** * [fetch_data] *)
(* ================================================================== *)

Definition FUSED_API_URL : string :=
  "https://www.fused.io/server/v1/realtime-shared/ee28781f18bbb5369441e13c90a3e2ca7af582f266fdfd9edc4c56ca05321830/run/file".

(** The dictionary literal of lines 21-27. *)
Definition base_params (travel_time : Z) (travel_mode : string) (resolution : Z)
  : dict pyval :=
  [ ("dtype_out_raster", PStr "png");
    ("dtype_out_vector", PStr "csv");
    ("travel_time", PInt travel_time);
    ("travel_mode", PStr travel_mode);
    ("resolution", PInt resolution) ].

(** [f"stadium_codes[{i}]"] *)
Definition code_key (i : nat) : string :=
  "stadium_codes[" ++ PyStr.str_of_nat i ++ "]".

(** [for i, code in enumerate(stadium_codes): params[f"stadium_codes[{i}]"] = code],
    entered with the counter at [i]. *)
Fixpoint add_stadium_codes (i : nat) (stadium_codes : list string)
  (params : dict pyval) : dict pyval :=
  match stadium_codes with
  | [] => params
  | code :: rest => add_stadium_codes (S i) rest (dict_set params (code_key i) (PStr code))
  end.

(** The entries the loop adds, when it is entered with the counter at [i]. *)
Fixpoint indexed_from (i : nat) (codes : list string) : dict pyval :=
  match codes with
  | [] => []
  | c :: r => (code_key i, PStr c) :: indexed_from (S i) r
  end.

(** [params] as it is handed to [requests.get]. *)
Definition query_params (stadium_codes : list string) (travel_time : Z)
  (travel_mode : string) (resolution : Z) : dict pyval :=
  add_stadium_codes 0 stadium_codes (base_params travel_time travel_mode resolution).

Definition empty_response_msg : string := "Empty response received from the API".
Definition invalid_csv_msg : string := "Empty or invalid CSV data received from the API".
Definition invalid_csv_diag : string := "Empty or invalid CSV data received. Raw content: ".

Definition fetch_data (w : World) (stadium_codes : list string) (travel_time : Z)
  (travel_mode : string) (resolution : Z) : M DataFrame :=
  let params := query_params stadium_codes travel_time travel_mode resolution in
  emit (HttpGet FUSED_API_URL params) ;;
  response <- lift (requests_get w FUSED_API_URL params) ;;
  match raise_for_status response with
  | Some e => raise e
  | None =>
      let content := PyStr.strip (text response) in
      if String.eqb content "" then raise (ValueError empty_response_msg)
      else
        try_except (lift (read_csv w content))
          (fun e =>
             match e with
             | EmptyDataError _ =>
                 emit (StError (invalid_csv_diag ++ PyStr.prefix_to 1000 content)) ;;
                 raise (ValueError invalid_csv_msg)
             | _ => raise e
             end)
  end.

(* ================================================================== *)
(** * From the answer to the layers: lines 91-138 of [main] *)
(* ================================================================== *)

Definition bindE {A B : Type} (r : exn + A) (k : A -> exn + B) : exn + B :=
  match r with
  | inl e => inl e
  | inr a => k a
  end.

Notation "x <~ r ;; k" := (bindE r (fun x => k))
  (at level 61, r at next level, right associativity) : py_scope.

(** [data[k]] *)
Definition column (data : DataFrame) (k : string) : exn + list cell :=
  match dict_get data k with
  | Some c => inr c
  | None => inl (KeyError k)
  end.

(** [str(x)] on the value of one cell. *)
Definition str_of_cell (w : World) (c : cell) : string :=
  match c with
  | CStr s => s
  | CInt z => PyStr.str_of_Z z
  | CFloat x => str_of_float w x
  | CBool b => if b then "True" else "False"
  | CList l => "[" ++ PyStr.join ", " (map PyStr.str_of_Z l) ++ "]"
  end.

(** A missing value of a column is the cell [CFloat nan]. *)
Definition is_missing (c : cell) : bool :=
  match c with
  | CFloat x => is_nan x
  | _ => false
  end.

(** One cell under [.astype(str)]: the text of its value, a missing value
    apart where the pandas at hand keeps it. *)
Definition astype_str (w : World) (c : cell) : cell :=
  if is_missing c && str_keeps_missing w then c else CStr (str_of_cell w c).

(** One cell under [.astype(float)]. *)
Definition astype_float (w : World) (c : cell) : exn + float :=
  match c with
  | CStr s =>
      match float_of_str w s with
      | Some x => inr x
      | None => inl (ValueError ("could not convert string to float: '" ++ s ++ "'"))
      end
  | CInt z => inr (PyFloat.of_Z z)
  | CFloat x => inr x
  | CBool b => inr (if b then one else zero)
  | CList _ => inl (ValueError "setting an array element with a sequence.")
  end.

(** The local function of lines 96-99.  Of the row it reads [row["cnt"]]
    only, which is [row_cnt]; [max_cnt] is the variable it closes over. *)
Definition get_elevation_and_color (max_cnt : float) (row_cnt : float)
  : exn + (float * list Z) :=
  let elevation := row_cnt in
  let color_intensity := (1 - row_cnt / max_cnt)%float in
  g <~ PyFloat.to_int (color_intensity * 255)%float ;;
  inr (elevation, [255; g; 0]).

(** [zip] of the names of the columns stops with the shortest name: the
    number of tuples it yields. *)
Definition zip_width (names : list string) : nat :=
  match names with
  | [] => 0%nat
  | k :: r => fold_right Nat.min (String.length k) (map String.length r)
  end.

(** The [i]-th tuple of that [zip]: the [i]-th character of every name. *)
Definition letters_at (i : nat) (names : list string) : list cell :=
  map (fun k => CStr (substring i 1 k)) names.

(** The result of [data.apply(get_elevation_and_color, axis=1)], starred
    into [zip] and unpacked into two targets.  On a table with no rows
    [apply] hands the table back and [zip] runs over the names of its
    columns: the unpacking raises [ValueError] unless the shortest name has
    two characters, and then the two targets are the first and the second
    characters of the names. *)
Definition unzip_results (data : DataFrame) (results : list (float * list Z))
  : exn + (list cell * list cell) :=
  match results with
  | [] =>
      let k := zip_width (dict_keys data) in
      if (k <? 2)%nat then
        inl (ValueError ("not enough values to unpack (expected 2, got "
                           ++ PyStr.str_of_nat k ++ ")"))
      else if (k =? 2)%nat then
        inr (letters_at 0 (dict_keys data), letters_at 1 (dict_keys data))
      else inl (ValueError "too many values to unpack (expected 2)")
  | _ => inr (map (fun r => CFloat (fst r)) results, map (fun r => CList (snd r)) results)
  end.

(** A table without rows, given [n] rows: every column is missing there. *)
Definition reindex (n : nat) (data : DataFrame) : DataFrame :=
  map (fun kv => (fst kv, repeat (CFloat nan) n)) data.

(** Lines 92-103: the two conversions, the maximum and the derived columns.
    The assignment of a list to a column of a table without rows first
    gives the table as many rows as the list is long. *)
Definition process_data (w : World) (data : DataFrame) : exn + DataFrame :=
  ids <~ column data "cell_id" ;;
  let data := dict_set data "cell_id" (map (astype_str w) ids) in
  raw <~ column data "cnt" ;;
  cnts <~ traverse (astype_float w) raw ;;
  let data := dict_set data "cnt" (map CFloat cnts) in
  let max_cnt := PyFloat.nanmax cnts in
  results <~ traverse (get_elevation_and_color max_cnt) cnts ;;
  cols <~ unzip_results data results ;;
  let data :=
    match results with
    | [] => reindex (List.length (fst cols)) data
    | _ => data
    end in
  let data := dict_set data "elevation" (fst cols) in
  let data := dict_set data "color" (snd cols) in
  inr data.

(** [name in selected_stadiums] *)
Definition isin (selected : list string) (name : string) : bool :=
  existsb (String.eqb name) selected.

(** Lines 91-138: the hexagon layer, the scatter layer and the view state. *)
Definition build_layers (w : World) (stadium_data : list VenueRecord)
  (selected : list string) (data : DataFrame)
  : exn + (HexLayer * ScatterLayer * ViewState) :=
  data <~ process_data w data ;;
  let layer :=
    {| hex_data := data; hex_pickable := true; hex_stroked := true;
       hex_filled := true; hex_extruded := true; get_hexagon := "cell_id";
       get_fill_color := "color"; get_elevation := "elevation";
       elevation_scale := 20 |} in
  let scatter := filter (fun v => isin selected (Nom_Site v)) stadium_data in
  let scatter_layer :=
    {| scatter_data := scatter; get_position := ["longitude"; "latitude"];
       get_color := [200; 30; 0; 160]; get_radius := 200;
       scatter_pickable := true |} in
  let view_state :=
    {| vs_latitude := PyFloat.mean (np_sum w) (map latitude scatter);
       vs_longitude := PyFloat.mean (np_sum w) (map longitude scatter);
       zoom := 11; pitch := 20 |} in
  inr (layer, scatter_layer, view_state).

(* ================================================================== *)
(** * [main] *)
(* ================================================================== *)

(** [load_stadium_data()]: the venue table, or the exception of its reader. *)
Definition load_stadium_data (w : World) : M (list VenueRecord) :=
  lift (venue_table w).

(** [dict(zip(stadium_data["Nom_Site"], stadium_data["Code_Site"]))] *)
Definition name_to_code_of (stadium_data : list VenueRecord) : dict string :=
  fold_left (fun d v => dict_set d (Nom_Site v) (Code_Site v)) stadium_data [].

(** [name_to_code[name]] *)
Definition lookup_code (name_to_code : dict string) (name : string) : exn + string :=
  match dict_get name_to_code name with
  | Some c => inr c
  | None => inl (KeyError name)
  end.

Definition title_msg : string := "Paris 2024 : Stadiums, Stays & City Access".

Definition fetching_msg (codes : list string) : string :=
  "Fetching data for stadium codes: " ++ PyStr.join ", " codes.

Definition retry_msg : string :=
  "Please try again with different parameters or contact support if the issue persists.".

(** The body of the [try] block, lines 86-147.  The spinner that surrounds
    it leaves nothing on the page and is not logged. *)
Definition cycle_body (w : World) (stadium_data : list VenueRecord)
  (ui : Inputs) (selected_stadium_codes : list string) : M unit :=
  emit (StWrite (fetching_msg selected_stadium_codes)) ;;
  data <- fetch_data w selected_stadium_codes (travel_time ui) (travel_mode ui) 11 ;;
  built <- lift (build_layers w stadium_data (selected_stadiums ui) data) ;;
  let '(layer, scatter_layer, view_state) := built in
  let deck :=
    {| layers := (layer, scatter_layer); initial_view_state := view_state;
       tooltip := "{stadium_name}" ++ String "010" "Count: {cnt}" |} in
  match pydeck_chart w deck with
  | Some e => raise e
  | None => emit (StPydeckChart deck)
  end.

(** The [except Exception as e] clause, lines 149-153. *)
Definition on_exception (e : exn) : M unit :=
  emit (StError ("An error occurred: " ++ exn_str e)) ;;
  emit (StWrite retry_msg).

(** The [try] statement under the button, lines 83-153. *)
Definition cycle (w : World) (stadium_data : list VenueRecord)
  (ui : Inputs) (selected_stadium_codes : list string) : M unit :=
  try_except (cycle_body w stadium_data ui selected_stadium_codes) on_exception.

(** [main()], on the values [ui] that the sidebar widgets return.  The
    look-up of the codes (line 75) comes before the [try] statement, so a
    [KeyError] there is not caught. *)
Definition main (w : World) (ui : Inputs) : M unit :=
  emit (StTitle title_msg) ;;
  stadium_data <- load_stadium_data w ;;
  let name_to_code := name_to_code_of stadium_data in
  emit (StSidebarHeader "Parameters") ;;
  selected_stadium_codes <-
    lift (traverse (lookup_code name_to_code) (selected_stadiums ui)) ;;
  (match selected_stadiums ui with
   | [] => ret tt
   | _ => emit (StSubheader "Selected Stadiums")
   end) ;;
  if button ui then cycle w stadium_data ui selected_stadium_codes else ret tt.

(** Which function of the script calls which. *)
Inductive func : Type :=
| f_load_stadium_data
| f_fetch_data
| f_fetch_airbnb_data
| f_hex_to_rgb
| f_main
| f_get_elevation_and_color.

Definition callees (f : func) : list func :=
  match f with
  | f_main => [f_load_stadium_data; f_fetch_data; f_get_elevation_and_color]
  | _ => []
  end.

(** The functions that running [f] can reach. *)
Inductive reaches : func -> func -> Prop :=
| reaches_refl : forall f, reaches f f
| reaches_call : forall f g h, In g (callees f) -> reaches g h -> reaches f h.

(* ================================================================== *)
(** * The formula of the specification, and sample data *)
(* ================================================================== *)

(** The colour as the specification words it:
    [[255, round(255 * (1 - count / max_count)), 0]]. *)
Definition spec_color (max_count count : float) : exn + list Z :=
  g <~ PyFloat.round_half_even (255 * (1 - count / max_count))%float ;;
  inr [255; g; 0].

Definition stade_a : VenueRecord :=
  {| Nom_Site := "Stade A"; Code_Site := "STA";
     latitude := 48.5%float; longitude := 2.25%float |}.

Definition newline : string := String "010" "".

(** A two-row answer of the remote service. *)
Definition sample_body : string :=
  "cell_id,cnt" ++ newline ++ "ABC123,10" ++ newline ++ "DEF456,5".

(** The table pandas reads from [sample_body]. *)
Definition sample_frame : DataFrame :=
  [ ("cell_id", [CStr "ABC123"; CStr "DEF456"]); ("cnt", [CInt 10; CInt 5]) ].

(** An answer whose rows all count zero, and its table. *)
Definition zero_body : string :=
  "cell_id,cnt" ++ newline ++ "ABC123,0" ++ newline ++ "DEF456,0".

Definition zero_frame : DataFrame :=
  [ ("cell_id", [CStr "ABC123"; CStr "DEF456"]); ("cnt", [CInt 0; CInt 0]) ].

(** An answer whose third line has one field too many; pandas refuses it
    with [ParserError]. *)
Definition ragged_body : string :=
  "cell_id,cnt" ++ newline ++ "ABC123,10" ++ newline ++ "DEF456,5,7".

Definition ragged_msg : string :=
  "Error tokenizing data. C error: Expected 2 fields in line 3, saw 3" ++ newline.

(** [pd.read_csv] on the three sample bodies.  The examples hand it no
    other body; on one it would answer with an exception that names the
    fact. *)
Definition sample_read_csv (content : string) : exn + DataFrame :=
  if String.eqb content sample_body then inr sample_frame
  else if String.eqb content zero_body then inr zero_frame
  else if String.eqb content ragged_body then inl (ParserError ragged_msg)
  else inl (OtherError "not one of the sample bodies").

(** A world with one venue in which the service answers [resp].  The
    sample tables hold texts and integers only, so that nothing is asked of
    [float_of_str], [str_of_float] and [str_keeps_missing], and one venue
    asks nothing of [np_sum]. *)
Definition world_of (resp : exn + Response) : World :=
  {| venue_table := inr [stade_a];
     requests_get := fun _ _ => resp;
     read_csv := sample_read_csv;
     float_of_str := fun _ => None;
     str_of_float := fun _ => "nan";
     str_keeps_missing := true;
     np_sum := fun xs => fold_left add xs zero;
     pydeck_chart := fun _ => None |}.

Definition ok_response (body : string) : Response :=
  {| status_code := 200; reason := "OK"; url := FUSED_API_URL; text := body |}.

Definition sample_world : World := world_of (inr (ok_response sample_body)).

Definition inputs_of (selected : list string) : Inputs :=
  {| selected_stadiums := selected; travel_time := 5; travel_mode := "auto";
     button := true |}.


(* ================================================================== *)
(** * Vocabulary for the further properties *)
(* ================================================================== *)

(** A string made of white space only (the empty string included). *)
Fixpoint blank (s : string) : bool :=
  match s with
  | EmptyString => true
  | String c r => PyStr.is_space c && blank r
  end.

(** The message [raise_for_status] gives to an error status. *)
Definition status_msg (r : Response) : string :=
  PyStr.str_of_Z (status_code r)
  ++ (if status_code r <? 500 then " Client Error: " else " Server Error: ")
  ++ reason r ++ " for url: " ++ url r.

(** The number of requests in a log. *)
Fixpoint requests_in (log : list event) : nat :=
  match log with
  | [] => 0%nat
  | HttpGet _ _ :: r => S (requests_in r)
  | _ :: r => requests_in r
  end.

(** The number of charts in a log. *)
Fixpoint charts_in (log : list event) : nat :=
  match log with
  | [] => 0%nat
  | StPydeckChart _ :: r => S (charts_in r)
  | _ :: r => charts_in r
  end.

(** The number of error messages in a log. *)
Fixpoint errors_in (log : list event) : nat :=
  match log with
  | [] => 0%nat
  | StError _ :: r => S (errors_in r)
  | _ :: r => errors_in r
  end.

(** The character that writes the base-16 digit [d], in lower case. *)
Definition hex_char (d : Z) : ascii :=
  ascii_of_nat (Z.to_nat (if d <? 10 then 48 + d else 87 + d)).

(** The two digits that write a number below 256 in base 16. *)
Definition hex_pair (v : Z) : string :=
  String (hex_char (v / 16)) (String (hex_char (v mod 16)) "").

(** The table that the processing makes of [sample_frame]. *)
Definition processed_sample : DataFrame :=
  [ ("cell_id", [CStr "ABC123"; CStr "DEF456"]);
    ("cnt", [CFloat 10; CFloat 5]);
    ("elevation", [CFloat 10; CFloat 5]);
    ("color", [CList [255; 0; 0]; CList [255; 127; 0]]) ].

(** A table with a missing count in its second row. *)
Definition gap_frame : DataFrame :=
  [ ("cell_id", [CStr "ABC123"; CStr "DEF456"]); ("cnt", [CInt 10; CFloat nan]) ].

(* ================================================================== *)
(** * Values and bounds of binary64 numbers *)
(* ================================================================== *)

(** A shifted mantissa with its round and sticky bits stands for a value
    that is at most [K], and below [K] when a bit was lost. *)
Definition under (K : Z) (mrs : shr_record) : Prop :=
  0 <= shr_m mrs <= K /\ (orb (shr_r mrs) (shr_s mrs) = true -> shr_m mrs < K).

(** Zero, or a positive number that is at most the integer [B]. *)
Definition below (B : Z) (f : spec_float) : Prop :=
  match f with
  | S754_zero _ => True
  | S754_finite false m e => e <= 0 /\ Zpos m <= B * 2 ^ (- e)
  | _ => False
  end.

(** The value of a non-negative finite number, in units of 2^-1074. *)
Definition ival (f : spec_float) : Z :=
  match f with
  | S754_finite false m e => Zpos m * 2 ^ (e + 1074)
  | _ => 0
  end.

(** Zero or positive, and finite. *)
Definition fin_nonneg (f : spec_float) : Prop :=
  valid_binary f = true
  /\ match f with
     | S754_zero _ | S754_finite false _ _ => True
     | _ => False
     end.

(** A count that is finite and not negative. *)
Definition valid_count (x : float) : Prop :=
  (0 <=? x)%float = true /\ (x <? infinity)%float = true.

(** A coordinate that is a finite number other than zero. *)
Definition proper_coordinate (x : float) : bool := is_finite x && negb (is_zero x).

(* ================================================================== *)
(** * The definitions at work *)
(* ================================================================== *)

Example hex_to_rgb_orange : hex_to_rgb "#ff8000" = Some (255, 128, 0).
Proof. reflexivity. Qed.

Example hex_to_rgb_upper : hex_to_rgb "C81E00" = Some (200, 30, 0).
Proof. reflexivity. Qed.

Example hex_to_rgb_bad : hex_to_rgb "#ggg" = None.
Proof. reflexivity. Qed.

(** [int] skips a tab before a digit, and refuses the separator U+001C that
    [str.strip] would remove. *)
Example hex_to_rgb_tab : hex_to_rgb (String "009" "f0000") = Some (15, 0, 0).
Proof. reflexivity. Qed.

Example hex_to_rgb_separator : hex_to_rgb (String "028" "f0000") = None.
Proof. reflexivity. Qed.

Example strip_separator : PyStr.strip (String "028" "f") = "f".
Proof. reflexivity. Qed.

Example to_int_trunc : PyFloat.to_int 127.5%float = inr 127.
Proof. vm_compute. reflexivity. Qed.

Example to_int_neg : PyFloat.to_int (-2.75)%float = inr (-2).
Proof. vm_compute. reflexivity. Qed.

Example round_tie : PyFloat.round_half_even 127.5%float = inr 128.
Proof. vm_compute. reflexivity. Qed.

Example round_tie_down : PyFloat.round_half_even 126.5%float = inr 126.
Proof. vm_compute. reflexivity. Qed.

Example of_Z_ten : PyFloat.of_Z 10 = 10%float.
Proof. vm_compute. reflexivity. Qed.

Example mean_empty (np_sum : list float -> float) :
  is_nan (PyFloat.mean np_sum []) = true.
Proof. vm_compute. reflexivity. Qed.

Example mean_two (np_sum : list float -> float) :
  PyFloat.mean np_sum [48.5%float; 49.5%float] = 49%float.
Proof. vm_compute. reflexivity. Qed.

Example mean_skips_missing (np_sum : list float -> float) :
  PyFloat.mean np_sum [48.5%float; nan; 49.5%float] = 49%float.
Proof. vm_compute. reflexivity. Qed.

Example mean_of_eight (np_sum : list float -> float) (x : float) :
  PyFloat.mean np_sum [x; 1; 1; 1; 1; 1; 1; 1]%float
  = (np_sum [if is_nan x then zero else x; 1; 1; 1; 1; 1; 1; 1]
     / PyFloat.of_Z (if is_nan x then 7 else 8))%float.
Proof.
  unfold PyFloat.mean. cbn [List.length Nat.ltb Nat.leb map filter].
  destruct (is_nan x); reflexivity.
Qed.

(* ================================================================== *)
(** * Properties of dictionaries and keys *)
(* ================================================================== *)

Section DictFacts.
Context {V : Type}.
Implicit Types (d : dict V) (k : string) (v : V).

Lemma dict_set_fresh d k v :
  dict_get d k = None -> dict_set d k v = (d ++ [(k, v)])%list.
Proof.
  induction d as [|[k' v'] d IH]; simpl; intros H; [reflexivity|].
  destruct (String.eqb k' k); [discriminate|].
  now rewrite IH.
Qed.

Lemma dict_get_app_fresh d d' k :
  dict_get d k = None -> dict_get (d ++ d')%list k = dict_get d' k.
Proof.
  induction d as [|[k' v'] d IH]; simpl; intros H; [reflexivity|].
  destruct (String.eqb k' k); [discriminate|]. now apply IH.
Qed.

Lemma dict_get_app_found d d' k v :
  dict_get d k = Some v -> dict_get (d ++ d')%list k = Some v.
Proof.
  induction d as [|[k' v'] d IH]; simpl; intros H; [discriminate|].
  destruct (String.eqb k' k); [assumption|]. now apply IH.
Qed.

Lemma dict_get_none_not_in d k :
  dict_get d k = None -> ~ In k (dict_keys d).
Proof.
  induction d as [|[k' v'] d IH]; simpl; intros H; [tauto|].
  destruct (String.eqb_spec k' k) as [->|Hne]; [discriminate|].
  intros [E|I]; [congruence|]. now apply IH.
Qed.
End DictFacts.

Lemma string_length_app (s t : string) :
  String.length (s ++ t) = (String.length s + String.length t)%nat.
Proof. induction s as [|c s IH]; simpl; [reflexivity|now rewrite IH]. Qed.

Lemma append_inj_l (s1 s2 t : string) : s1 ++ t = s2 ++ t -> s1 = s2.
Proof.
  revert s2; induction s1 as [|c s1 IH]; intros [|c2 s2] H; simpl in H.
  - reflexivity.
  - apply (f_equal String.length) in H. simpl in H.
    rewrite string_length_app in H. lia.
  - apply (f_equal String.length) in H. simpl in H.
    rewrite string_length_app in H. lia.
  - injection H as -> H. f_equal. now apply IH.
Qed.

Lemma str_of_nat_inj (i j : nat) : PyStr.str_of_nat i = PyStr.str_of_nat j -> i = j.
Proof.
  unfold PyStr.str_of_nat. intros H.
  apply (f_equal NilEmpty.uint_of_string) in H.
  rewrite !NilEmpty.usu in H. injection H as H.
  apply (f_equal Nat.of_uint) in H.
  now rewrite !DecimalNat.Unsigned.of_to in H.
Qed.

Lemma code_key_inj (i j : nat) : code_key i = code_key j -> i = j.
Proof.
  unfold code_key. intros H.
  apply str_of_nat_inj, (append_inj_l _ _ "]").
  simpl in H. now repeat injection H as H.
Qed.

Lemma code_key_neqb (i j : nat) : i <> j -> String.eqb (code_key i) (code_key j) = false.
Proof.
  intros H. apply String.eqb_neq. intros E. now apply H, code_key_inj.
Qed.

(** No scalar key of the literal is an indexed key. *)
Lemma base_params_no_code_key (tt : Z) (tm : string) (res : Z) (i : nat) :
  dict_get (base_params tt tm res) (code_key i) = None.
Proof. reflexivity. Qed.

Lemma add_stadium_codes_app (codes : list string) :
  forall (i : nat) (params : dict pyval),
    (forall j, (i <= j)%nat -> dict_get params (code_key j) = None) ->
    add_stadium_codes i codes params = (params ++ indexed_from i codes)%list.
Proof.
  induction codes as [|c r IH]; intros i params Hfresh; simpl.
  - now rewrite app_nil_r.
  - rewrite dict_set_fresh by (apply Hfresh; lia).
    rewrite IH.
    + now rewrite <- app_assoc.
    + intros j Hj. rewrite dict_get_app_fresh by (apply Hfresh; lia).
      cbn [dict_get]. rewrite code_key_neqb by lia. reflexivity.
Qed.

Lemma indexed_from_get (codes : list string) :
  forall (i n : nat) (c : string),
    nth_error codes n = Some c ->
    dict_get (indexed_from i codes) (code_key (i + n)) = Some (PStr c).
Proof.
  induction codes as [|c0 r IH]; intros i [|n] c H;
    cbn [nth_error indexed_from dict_get] in *; try discriminate.
  - injection H as ->. rewrite Nat.add_0_r, String.eqb_refl. reflexivity.
  - rewrite code_key_neqb by lia.
    replace (i + S n)%nat with (S i + n)%nat by lia. now apply IH.
Qed.

Lemma indexed_from_keys (codes : list string) :
  forall i, dict_keys (indexed_from i codes) = map code_key (seq i (List.length codes)).
Proof.
  induction codes as [|c r IH]; intros i; simpl; [reflexivity|].
  f_equal. apply IH.
Qed.

(* ================================================================== *)
(** * The query parameters *)
(* ================================================================== *)

Lemma query_params_app (codes : list string) (tt : Z) (tm : string) (res : Z) :
  query_params codes tt tm res = (base_params tt tm res ++ indexed_from 0 codes)%list.
Proof.
  unfold query_params. apply add_stadium_codes_app.
  intros j _. apply base_params_no_code_key.
Qed.

Lemma code_keys_nodup (n i : nat) : NoDup (map code_key (seq i n)).
Proof.
  revert i; induction n as [|n IH]; intros i; simpl; constructor; [|apply IH].
  intros Hin. apply in_map_iff in Hin as (j & E & Hj).
  apply code_key_inj in E. apply in_seq in Hj. lia.
Qed.

Lemma fetch_data_sends (w : World) (codes : list string) (tt : Z) (tm : string)
  (res : Z) (log : list event) :
  exists r rest,
    fetch_data w codes tt tm res log
    = (r, (log ++ HttpGet FUSED_API_URL (query_params codes tt tm res) :: rest)%list).
Proof.
  unfold fetch_data, bind, emit, lift, try_except, raise.
  destruct (requests_get w _ _) as [e|resp]; [now eexists _, []|].
  destruct (raise_for_status resp) as [e|]; [now eexists _, []|].
  destruct (String.eqb _ ""); [now eexists _, []|].
  destruct (read_csv w _) as [e|df]; [|now eexists _, []].
  destruct e; try (now eexists _, []).
  eexists _, [_]. now rewrite <- app_assoc.
Qed.

(** C5.  For venue codes c_0 .. c_(n-1), the parameters handed to the HTTP GET
    are the five scalar keys [dtype_out_raster], [dtype_out_vector],
    [travel_time], [travel_mode], [resolution] followed by one entry
    [stadium_codes[i] = c_i] per code, in order: every code is found under its
    indexed key, the keys are pairwise distinct, and this dictionary is what
    [fetch_data] sends to the fixed endpoint. *)
Theorem query_params_indexed (w : World) (stadium_codes : list string)
  (travel_time : Z) (travel_mode : string) (resolution : Z) (log : list event) :
  let params := query_params stadium_codes travel_time travel_mode resolution in
  params = ([ ("dtype_out_raster", PStr "png");
              ("dtype_out_vector", PStr "csv");
              ("travel_time", PInt travel_time);
              ("travel_mode", PStr travel_mode);
              ("resolution", PInt resolution) ]
            ++ indexed_from 0 stadium_codes)%list
  /\ (forall i c, nth_error stadium_codes i = Some c ->
        dict_get params (code_key i) = Some (PStr c))
  /\ dict_keys params
     = (["dtype_out_raster"; "dtype_out_vector"; "travel_time"; "travel_mode";
         "resolution"]
        ++ map code_key (seq 0 (List.length stadium_codes)))%list
  /\ NoDup (dict_keys params)
  /\ List.length params = (5 + List.length stadium_codes)%nat
  /\ exists r rest,
       fetch_data w stadium_codes travel_time travel_mode resolution log
       = (r, (log ++ HttpGet FUSED_API_URL params :: rest)%list).
Proof.
  intros params.
  assert (E : params = (base_params travel_time travel_mode resolution
                          ++ indexed_from 0 stadium_codes)%list)
    by apply query_params_app.
  assert (K : dict_keys params
     = (["dtype_out_raster"; "dtype_out_vector"; "travel_time"; "travel_mode";
         "resolution"]
        ++ map code_key (seq 0 (List.length stadium_codes)))%list).
  { rewrite E. unfold dict_keys. rewrite map_app.
    change (map fst (indexed_from 0 stadium_codes))
      with (dict_keys (indexed_from 0 stadium_codes)).
    now rewrite indexed_from_keys. }
  split; [exact E|]. split; [|split; [exact K|split; [|split]]].
  - intros i c H. rewrite E.
    rewrite dict_get_app_fresh by apply base_params_no_code_key.
    now apply (indexed_from_get stadium_codes 0 i).
  - rewrite K. apply NoDup_app.
    + repeat constructor; simpl; intuition discriminate.
    + apply code_keys_nodup.
    + intros k Hk Hin. apply in_map_iff in Hin as (j & <- & _).
      simpl in Hk. unfold code_key in Hk. simpl in Hk.
      intuition discriminate.
  - apply (f_equal (@List.length _)) in K. unfold dict_keys in K.
    rewrite length_map in K. rewrite K. rewrite length_app, length_map, length_seq.
    reflexivity.
  - apply fetch_data_sends.
Qed.

(* ================================================================== *)
(** * [hex_to_rgb] on six hexadecimal digits *)
(* ================================================================== *)

(** What being a hexadecimal digit excludes. *)
Lemma hex_val_char (c : ascii) (d : Z) :
  PyStr.hex_val c = Some d ->
  PyStr.is_int_space c = false /\ Ascii.eqb c "#" = false /\ Ascii.eqb c "+" = false
  /\ Ascii.eqb c "-" = false /\ Ascii.eqb c "_" = false
  /\ Ascii.eqb c "x" = false /\ Ascii.eqb c "X" = false /\ 0 <= d <= 15.
Proof.
  destruct c as [b0 b1 b2 b3 b4 b5 b6 b7].
  destruct b0, b1, b2, b3, b4, b5, b6, b7; vm_compute; intros H;
    try discriminate H; injection H as <-;
    repeat split; try reflexivity; discriminate.
Qed.

Lemma int16_pair (c0 c1 : ascii) (d0 d1 : Z) :
  PyStr.hex_val c0 = Some d0 -> PyStr.hex_val c1 = Some d1 ->
  PyStr.int16 (String c0 (String c1 "")) = Some (16 * d0 + d1).
Proof.
  intros H0 H1.
  destruct (hex_val_char _ _ H0) as (S0 & _ & P0 & M0 & U0 & X0 & Y0 & _).
  destruct (hex_val_char _ _ H1) as (S1 & _ & _ & _ & U1 & X1 & Y1 & _).
  unfold PyStr.int16. cbn [PyStr.lstrip_by]. rewrite S0.
  cbn [PyStr.rstrip_by]. rewrite S1. rewrite P0, M0, X1, Y1.
  rewrite andb_false_r. cbn [PyStr.hex_digits].
  rewrite U0, H0, U1, H1. reflexivity.
Qed.

Lemma reaches_from_leaf (f g : func) : callees f = [] -> reaches f g -> f = g.
Proof. intros E H. destruct H as [|f g h I _]; [reflexivity|]. rewrite E in I. destruct I. Qed.

Lemma main_never_reaches_hex_to_rgb : ~ reaches f_main f_hex_to_rgb.
Proof.
  intros H. inversion H as [|f g h I R]; subst.
  simpl in I. destruct I as [<-|[<-|[<-|[]]]];
    apply reaches_from_leaf in R; (reflexivity || discriminate).
Qed.

(** C10.  On a string of exactly six hexadecimal digits, with or without a
    leading [#], [hex_to_rgb] returns the three numbers that the pairs of
    digits denote in base 16, each of them between 0 and 255; and no call
    chain from [main] reaches [hex_to_rgb]. *)
Theorem hex_to_rgb_six_digits (c0 c1 c2 c3 c4 c5 : ascii) (d0 d1 d2 d3 d4 d5 : Z) :
  PyStr.hex_val c0 = Some d0 -> PyStr.hex_val c1 = Some d1 ->
  PyStr.hex_val c2 = Some d2 -> PyStr.hex_val c3 = Some d3 ->
  PyStr.hex_val c4 = Some d4 -> PyStr.hex_val c5 = Some d5 ->
  let digits := String c0 (String c1 (String c2 (String c3 (String c4 (String c5 ""))))) in
  let rgb := (16 * d0 + d1, 16 * d2 + d3, 16 * d4 + d5) in
  hex_to_rgb digits = Some rgb
  /\ hex_to_rgb (String "#" digits) = Some rgb
  /\ (0 <= 16 * d0 + d1 <= 255 /\ 0 <= 16 * d2 + d3 <= 255 /\ 0 <= 16 * d4 + d5 <= 255)
  /\ ~ reaches f_main f_hex_to_rgb.
Proof.
  intros H0 H1 H2 H3 H4 H5 digits rgb.
  assert (E : hex_to_rgb digits = Some rgb).
  { unfold hex_to_rgb, PyStr.lstrip_hash, digits. cbn [PyStr.lstrip_by].
    destruct (hex_val_char _ _ H0) as (_ & -> & _).
    unfold PyStr.slice2. cbn [substring].
    rewrite (int16_pair _ _ _ _ H0 H1), (int16_pair _ _ _ _ H2 H3),
      (int16_pair _ _ _ _ H4 H5). reflexivity. }
  split; [exact E|]. split; [exact E|]. split.
  - pose proof (hex_val_char _ _ H0). pose proof (hex_val_char _ _ H1).
    pose proof (hex_val_char _ _ H2). pose proof (hex_val_char _ _ H3).
    pose proof (hex_val_char _ _ H4). pose proof (hex_val_char _ _ H5). lia.
  - exact main_never_reaches_hex_to_rgb.
Qed.

Lemma hex_to_rgb_six_digits_witness :
  hex_to_rgb "ff8000" = Some (255, 128, 0) /\ hex_to_rgb "#ff8000" = Some (255, 128, 0).
Proof.
  pose proof (hex_to_rgb_six_digits "f" "f" "8" "0" "0" "0" 15 15 8 0 0 0
                eq_refl eq_refl eq_refl eq_refl eq_refl eq_refl) as (A & B & _).
  exact (conj A B).
Defined.

(* ================================================================== *)
(** * Facts about binary64 arithmetic *)
(* ================================================================== *)

Module FloatFacts.

Local Open Scope float_scope.

Lemma Prim2SF_one : Prim2SF 1 = S754_finite false 4503599627370496 (-52).
Proof. vm_compute. reflexivity. Qed.

Lemma Prim2SF_zero : Prim2SF 0 = S754_zero false.
Proof. vm_compute. reflexivity. Qed.

Lemma Prim2SF_infinity : Prim2SF infinity = S754_infinity false.
Proof. vm_compute. reflexivity. Qed.

(** [x == 0] holds of the two zeros only. *)
Lemma eqb_zero (x : float) : (x =? 0) = true -> exists s, Prim2SF x = S754_zero s.
Proof.
  rewrite eqb_spec, Prim2SF_zero. unfold SFeqb.
  destruct (Prim2SF x) as [s|s| |s m e]; simpl; try discriminate.
  - now exists s.
  - destruct s; discriminate.
  - destruct s; discriminate.
Qed.

(** [0 < m] holds of the positive finite numbers and of [+inf]. *)
Lemma ltb_zero (m : float) :
  (0 <? m) = true ->
  (exists mm e, Prim2SF m = S754_finite false mm e) \/ Prim2SF m = S754_infinity false.
Proof.
  rewrite ltb_spec, Prim2SF_zero. unfold SFltb.
  destruct (Prim2SF m) as [s|s| |s mm e]; simpl; try discriminate.
  - destruct s; [discriminate|now right].
  - destruct s; [discriminate|]. left. now exists mm, e.
Qed.

Lemma ltb_infinity (m : float) :
  (m <? infinity) = true -> Prim2SF m <> S754_infinity false.
Proof.
  rewrite ltb_spec, Prim2SF_infinity. intros H E. rewrite E in H. discriminate.
Qed.

(** [c == m] for a finite non-zero [m] makes them the same number. *)
Lemma eqb_finite (c m : float) (s : bool) (mm : positive) (e : Z) :
  Prim2SF m = S754_finite s mm e -> (c =? m) = true -> c = m.
Proof.
  intros Hm. rewrite eqb_spec, Hm. unfold SFeqb. intros H.
  apply Prim2SF_inj. rewrite Hm.
  destruct (Prim2SF c) as [s1|s1| |s1 m1 e1]; simpl in H; try discriminate.
  - destruct s; discriminate.
  - destruct s1; discriminate.
  - destruct s1, s; try discriminate;
      destruct (e1 ?= e)%Z eqn:Ez; try discriminate;
      apply Z.compare_eq in Ez;
      destruct (PosDef.Pos.compare_cont Eq m1 mm) eqn:Em; try discriminate;
      apply (Pos.compare_eq m1 mm) in Em; now subst.
Qed.

Lemma div_eucl_exact (a b : Z) : b <> 0%Z -> Z.div_eucl (a * b) b = (a, 0%Z).
Proof.
  intros Hb. pose proof (Z.div_mul a b Hb) as Hq. pose proof (Z.mod_mul a b Hb) as Hr.
  unfold Z.div, Z.modulo in *. destruct (Z.div_eucl (a * b) b). now subst.
Qed.

(** A finite non-zero number divided by itself is 1. *)
Lemma div_self (x : float) (s : bool) (mm : positive) (e : Z) :
  Prim2SF x = S754_finite s mm e -> x / x = 1.
Proof.
  intros Hx. apply Prim2SF_inj. rewrite div_spec, Hx, Prim2SF_one.
  unfold SF64div, SFdiv, SFdiv_core_binary.
  rewrite !Z.sub_diag.
  change (Z.min (fexp prec emax 0) 0) with (-53)%Z.
  change (0 - -53)%Z with 53%Z. cbv iota beta.
  rewrite Z.shiftl_mul_pow2 by lia.
  rewrite (Z.mul_comm (Z.pos mm)), div_eucl_exact by discriminate.
  assert (L : new_location (Z.pos mm) 0 = loc_Exact).
  { unfold new_location, new_location_even, new_location_odd.
    now destruct (Z.even (Z.pos mm)). }
  rewrite L, xorb_nilpotent. vm_compute. reflexivity.
Qed.

(** Zero divided by a positive number is a zero. *)
Lemma div_zero_pos (c m : float) :
  (c =? 0) = true -> (0 <? m) = true -> exists s, Prim2SF (c / m) = S754_zero s.
Proof.
  intros Hc Hm. apply eqb_zero in Hc as (s & Hc).
  rewrite div_spec, Hc. unfold SF64div.
  apply ltb_zero in Hm as [(mm & e & ->)| ->]; simpl; eauto.
Qed.

(** One minus a zero is one. *)
Lemma one_sub_zero (q : float) (s : bool) : Prim2SF q = S754_zero s -> 1 - q = 1.
Proof.
  intros Hq. apply Prim2SF_inj. rewrite sub_spec, Hq, Prim2SF_one. reflexivity.
Qed.

(** Zero divided by zero is NaN, whatever the signs. *)
Lemma div_zero_zero (c m : float) :
  (c =? 0) = true -> (m =? 0) = true -> Prim2SF (c / m) = S754_nan.
Proof.
  intros Hc Hm. apply eqb_zero in Hc as (s & Hc). apply eqb_zero in Hm as (s' & Hm).
  now rewrite div_spec, Hc, Hm.
Qed.

(** NaN goes through the subtraction and the product. *)
Lemma nan_intensity (q : float) :
  Prim2SF q = S754_nan -> Prim2SF ((1 - q) * 255) = S754_nan.
Proof.
  intros Hq. rewrite mul_spec, sub_spec, Hq, Prim2SF_one. reflexivity.
Qed.

Lemma SFmul_comm (x y : spec_float) : SF64mul x y = SF64mul y x.
Proof.
  unfold SF64mul.
  destruct x as [sx|sx| |sx mx ex], y as [sy|sy| |sy my ey]; simpl;
    try reflexivity; try (now rewrite xorb_comm).
  now rewrite xorb_comm, Pos.mul_comm, Z.add_comm.
Qed.

(** The product of two floats does not depend on their order. *)
Lemma mul_comm (x y : float) : x * y = y * x.
Proof. apply Prim2SF_inj. rewrite !mul_spec. apply SFmul_comm. Qed.

End FloatFacts.

(* ================================================================== *)
(** * The derived colour *)
(* ================================================================== *)

Local Open Scope float_scope.

Lemma dict_get_set_other {V : Type} (d : dict V) (k k' : string) (v : V) :
  String.eqb k k' = false -> dict_get (dict_set d k v) k' = dict_get d k'.
Proof.
  intros Hk. induction d as [|[k0 v0] d IH]; simpl.
  - now rewrite Hk.
  - destruct (String.eqb_spec k0 k) as [->|Hne]; simpl.
    + now rewrite Hk.
    + now rewrite IH.
Qed.

Lemma dict_get_set_same {V : Type} (d : dict V) (k : string) (v : V) :
  dict_get (dict_set d k v) k = Some v.
Proof.
  induction d as [|[k0 v0] d IH]; simpl.
  - now rewrite String.eqb_refl.
  - destruct (String.eqb_spec k0 k) as [->|Hne]; simpl.
    + now rewrite String.eqb_refl.
    + apply String.eqb_neq in Hne. now rewrite Hne.
Qed.

Lemma filter_all {A : Type} (p : A -> bool) (l : list A) :
  Forall (fun x => p x = true) l -> filter p l = l.
Proof. induction 1 as [|x l Hx _ IH]; simpl; [reflexivity|]. now rewrite Hx, IH. Qed.

Lemma fold_max_in (r : list float) :
  forall x, In (fold_left (fun a y => if a <? y then y else a) r x) (x :: r).
Proof.
  induction r as [|y r IH]; intros x; simpl; [now left|].
  destruct (x <? y).
  - right. apply IH.
  - destruct (IH x) as [H|H]; [now left|now right; right].
Qed.

Lemma zero_not_nan (x : float) : (x =? 0) = true -> is_nan x = false.
Proof.
  intros H. apply FloatFacts.eqb_zero in H as (s & H).
  unfold is_nan. now rewrite eqb_spec, H.
Qed.

(** The maximum of counts that are all zero is zero. *)
Lemma nanmax_all_zero (cnts : list float) :
  cnts <> [] -> Forall (fun x => (x =? 0) = true) cnts ->
  (PyFloat.nanmax cnts =? 0) = true.
Proof.
  intros Hne Hall. unfold PyFloat.nanmax.
  rewrite filter_all.
  - destruct cnts as [|x r]; [contradiction|].
    rewrite Forall_forall in Hall. apply Hall, fold_max_in.
  - eapply Forall_impl; [|exact Hall]. intros x Hx; simpl.
    now rewrite zero_not_nan.
Qed.

(** A zero count over a zero maximum: the conversion to an integer raises. *)
Lemma zero_over_zero (max_cnt row_cnt : float) :
  (max_cnt =? 0) = true -> (row_cnt =? 0) = true ->
  get_elevation_and_color max_cnt row_cnt = inl (ValueError nan_msg).
Proof.
  intros Hm Hc. unfold get_elevation_and_color, PyFloat.to_int.
  now rewrite (FloatFacts.nan_intensity _ (FloatFacts.div_zero_zero _ _ Hc Hm)).
Qed.

Lemma traverse_first_raises {A B : Type} (f : A -> exn + B) (a : A) (r : list A) (e : exn) :
  f a = inl e -> traverse f (a :: r) = inl e.
Proof. intros H; simpl. now rewrite H. Qed.

(** C1, amended.  When every row of the answer has count 0 (and there is at
    least one row), the maximum is 0, the ratio count/max_count is 0/0,
    which is NaN and is not replaced by 0: the derivation of each row raises
    [ValueError] at the conversion to an integer, and so does the processing
    of the table, which derives no colour. *)
Theorem zero_counts_raise (w : World) (data : DataFrame) (ids raw : list cell)
  (cnts : list float) :
  dict_get data "cell_id" = Some ids ->
  dict_get data "cnt" = Some raw ->
  traverse (astype_float w) raw = inr cnts ->
  cnts <> [] ->
  Forall (fun x => (x =? 0) = true) cnts ->
  (PyFloat.nanmax cnts =? 0) = true
  /\ (forall c, In c cnts ->
        get_elevation_and_color (PyFloat.nanmax cnts) c = inl (ValueError nan_msg))
  /\ process_data w data = inl (ValueError nan_msg).
Proof.
  intros Hid Hcnt Hconv Hne Hall.
  pose proof (nanmax_all_zero cnts Hne Hall) as Hmax.
  assert (Hrow : forall c, In c cnts ->
            get_elevation_and_color (PyFloat.nanmax cnts) c = inl (ValueError nan_msg)).
  { intros c Hc. rewrite Forall_forall in Hall. now apply zero_over_zero; [|apply Hall]. }
  repeat split; try assumption.
  unfold process_data, column. rewrite Hid. cbn [bindE].
  rewrite dict_get_set_other by reflexivity. rewrite Hcnt. cbn [bindE].
  rewrite Hconv. cbn [bindE].
  destruct cnts as [|c r]; [contradiction|].
  rewrite (traverse_first_raises _ c r (ValueError nan_msg)) by (apply Hrow; now left).
  reflexivity.
Qed.

Lemma zero_counts_raise_witness :
  process_data sample_world zero_frame = inl (ValueError nan_msg).
Proof.
  refine (proj2 (proj2 (zero_counts_raise sample_world zero_frame
                          [CStr "ABC123"; CStr "DEF456"] [CInt 0; CInt 0]
                          [PyFloat.of_Z 0; PyFloat.of_Z 0]
                          eq_refl eq_refl eq_refl _ _))).
  - discriminate.
  - repeat constructor.
Defined.

(** C1 as stated fails: on the answer with two rows of count 0 the maximum
    is 0, and neither a row nor the table gets a colour. *)
Lemma zero_counts_no_color :
  PyFloat.nanmax [0; 0] = 0
  /\ get_elevation_and_color 0 0 = inl (ValueError nan_msg)
  /\ ~ (exists d, process_data sample_world zero_frame = inr d).
Proof.
  split; [now vm_compute|]. split; [now vm_compute|].
  intros [d H]. vm_compute in H. discriminate H.
Qed.

Lemma to_int_ext (x y : float) : x = y -> PyFloat.to_int x = PyFloat.to_int y.
Proof. now intros ->. Qed.

(** The green channel at the maximum. *)
Lemma color_at_max (max_cnt row_cnt : float) :
  (0 <? max_cnt) = true -> (max_cnt <? infinity) = true ->
  (row_cnt =? max_cnt) = true ->
  get_elevation_and_color max_cnt row_cnt = inr (row_cnt, [255; 0; 0]%Z).
Proof.
  intros Hpos Hfin Heq.
  destruct (FloatFacts.ltb_zero _ Hpos) as [(mm & e & Hm)|Hinf];
    [|now apply FloatFacts.ltb_infinity in Hfin].
  rewrite (FloatFacts.eqb_finite _ _ _ _ _ Hm Heq).
  unfold get_elevation_and_color.
  rewrite (FloatFacts.div_self _ _ _ _ Hm).
  now vm_compute.
Qed.

(** The green channel of a row that counts zero. *)
Lemma color_at_zero (max_cnt row_cnt : float) :
  (0 <? max_cnt) = true -> (row_cnt =? 0) = true ->
  get_elevation_and_color max_cnt row_cnt = inr (row_cnt, [255; 255; 0]%Z).
Proof.
  intros Hpos Hzero.
  destruct (FloatFacts.div_zero_pos _ _ Hzero Hpos) as (s & Hq).
  unfold get_elevation_and_color.
  rewrite (FloatFacts.one_sub_zero _ _ Hq).
  now vm_compute.
Qed.

(** C2, amended.  For a positive finite maximum, the colour of a row is
    [[255, int(255 * (1 - count / max_count)), 0]], where [int] truncates
    toward zero instead of rounding, and the derivation raises exactly when
    that conversion does; a row at the maximum gets green 0 and a row of
    count 0 gets green 255. *)
Theorem color_truncates (max_cnt row_cnt : float) :
  (0 <? max_cnt) = true -> (max_cnt <? infinity) = true ->
  get_elevation_and_color max_cnt row_cnt
  = (g <~ PyFloat.to_int (255 * (1 - row_cnt / max_cnt)) ;; inr (row_cnt, [255; g; 0]%Z))
  /\ ((row_cnt =? max_cnt) = true ->
        get_elevation_and_color max_cnt row_cnt = inr (row_cnt, [255; 0; 0]%Z))
  /\ ((row_cnt =? 0) = true ->
        get_elevation_and_color max_cnt row_cnt = inr (row_cnt, [255; 255; 0]%Z)).
Proof.
  intros Hpos Hfin. split; [|split].
  - unfold get_elevation_and_color. now rewrite FloatFacts.mul_comm.
  - now apply color_at_max.
  - now apply color_at_zero.
Qed.

Lemma color_truncates_witness :
  get_elevation_and_color 10 10 = inr (10, [255; 0; 0]%Z)
  /\ get_elevation_and_color 10 0 = inr (0, [255; 255; 0]%Z).
Proof.
  destruct (color_truncates 10 10 eq_refl eq_refl) as (_ & A & _).
  destruct (color_truncates 10 0 eq_refl eq_refl) as (_ & _ & B).
  exact (conj (A eq_refl) (B eq_refl)).
Defined.

(** C2 as stated fails.  With a maximum of 4, the row of count 3 has
    255 * (1 - 3/4) = 63.75: the script's green is 63 where rounding gives 64.
    And when the maximum is infinite, the row at the maximum has no colour. *)
Lemma color_is_not_rounded :
  (0 <? 4) = true
  /\ get_elevation_and_color 4 3 = inr (3, [255; 63; 0]%Z)
  /\ spec_color 4 3 = inr [255; 64; 0]%Z
  /\ get_elevation_and_color infinity infinity = inl (ValueError nan_msg).
Proof. repeat split; now vm_compute. Qed.

(** The scenario of the specification: counts 10 and 5. *)
Example scenario_colors :
  process_data sample_world sample_frame
  = inr [ ("cell_id", [CStr "ABC123"; CStr "DEF456"]);
          ("cnt", [CFloat 10; CFloat 5]);
          ("elevation", [CFloat 10; CFloat 5]);
          ("color", [CList [255; 0; 0]%Z; CList [255; 127; 0]%Z]) ].
Proof. now vm_compute. Qed.

(* ================================================================== *)
(** * An empty selection *)
(* ================================================================== *)

Local Close Scope float_scope.

Lemma isin_nil (name : string) : isin [] name = false.
Proof. reflexivity. Qed.

Lemma filter_isin_nil (stadium_data : list VenueRecord) :
  filter (fun v => isin [] (Nom_Site v)) stadium_data = [].
Proof. induction stadium_data as [|v r IH]; simpl; [reflexivity|exact IH]. Qed.

(** C3, amended.  With no venue selected, the construction of the layers
    raises nothing of its own: it fails only when, and as, the processing of
    the rows fails; otherwise it returns the hexagon layer, a scatter layer
    without points and a view state whose latitude and longitude are NaN
    (the mean of nothing), with zoom 11 and pitch 20. *)
Theorem empty_selection_builds (w : World) (stadium_data : list VenueRecord)
  (data : DataFrame) :
  build_layers w stadium_data [] data
  = match process_data w data with
    | inl e => inl e
    | inr d =>
        inr ({| hex_data := d; hex_pickable := true; hex_stroked := true;
                hex_filled := true; hex_extruded := true; get_hexagon := "cell_id";
                get_fill_color := "color"; get_elevation := "elevation";
                elevation_scale := 20 |},
             {| scatter_data := []; get_position := ["longitude"; "latitude"];
                get_color := [200; 30; 0; 160]; get_radius := 200;
                scatter_pickable := true |},
             {| vs_latitude := nan; vs_longitude := nan; zoom := 11; pitch := 20 |})
    end.
Proof.
  unfold build_layers. destruct (process_data w data) as [e|d]; cbn [bindE];
    [reflexivity|].
  now rewrite filter_isin_nil.
Qed.

(** C3 as stated fails: with the one-venue table, no venue selected and the
    two-row answer, the construction returns, and the view state it returns
    is centred on NaN. *)
Lemma empty_selection_no_error :
  match build_layers sample_world [stade_a] [] sample_frame with
  | inl _ => False
  | inr (_, scatter_layer, view_state) =>
      scatter_data scatter_layer = []
      /\ is_nan (vs_latitude view_state) = true
      /\ is_nan (vs_longitude view_state) = true
      /\ zoom view_state = 11 /\ pitch view_state = 20
  end.
Proof. vm_compute. repeat split. Qed.

(** With the venue selected, the view is centred on it. *)
Example scenario_view_state :
  match build_layers sample_world [stade_a] ["Stade A"] sample_frame with
  | inl _ => False
  | inr (_, _, view_state) =>
      view_state = {| vs_latitude := 48.5%float; vs_longitude := 2.25%float;
                      zoom := 11; pitch := 20 |}
  end.
Proof. now vm_compute. Qed.

(* ================================================================== *)
(** * The answer of the service *)
(* ================================================================== *)

Lemma raise_for_status_ok (r : Response) :
  200 <= status_code r < 300 -> raise_for_status r = None.
Proof.
  intros H. unfold raise_for_status.
  destruct (400 <=? status_code r) eqn:E1; [apply Z.leb_le in E1; lia|].
  destruct (500 <=? status_code r) eqn:E2; [apply Z.leb_le in E2; lia|].
  reflexivity.
Qed.

Lemma strip_empty : PyStr.strip "" = "".
Proof. reflexivity. Qed.

Lemma prefix_to_length (n : nat) (s : string) : (String.length (PyStr.prefix_to n s) <= n)%nat.
Proof.
  revert s; induction n as [|n IH]; intros [|c s]; simpl; try lia.
  specialize (IH s). lia.
Qed.

Lemma prefix_to_prefix (n : nat) (s : string) : prefix (PyStr.prefix_to n s) s = true.
Proof.
  revert s; induction n as [|n IH]; intros [|c s]; simpl; try reflexivity.
  destruct (ascii_dec c c) as [_|Hne]; [apply IH|now elim Hne].
Qed.

Lemma prefix_to_short (n : nat) (s : string) :
  (String.length s <= n)%nat -> PyStr.prefix_to n s = s.
Proof.
  revert s; induction n as [|n IH]; intros [|c s]; simpl; intros H;
    try reflexivity; try lia.
  f_equal. apply IH. lia.
Qed.

(** C6.  When the service answers with a success status (2xx) and a body
    that is empty, or blank, [fetch_data] raises the empty-response error
    [ValueError("Empty response received from the API")]: it returns no
    table, and the request is all it has done. *)
Theorem empty_body_raises (w : World) (stadium_codes : list string)
  (travel_time : Z) (travel_mode : string) (resolution : Z) (resp : Response)
  (log : list event) :
  let params := query_params stadium_codes travel_time travel_mode resolution in
  requests_get w FUSED_API_URL params = inr resp ->
  200 <= status_code resp < 300 ->
  PyStr.strip (text resp) = "" ->
  fetch_data w stadium_codes travel_time travel_mode resolution log
  = (inl (ValueError empty_response_msg), (log ++ [HttpGet FUSED_API_URL params])%list).
Proof.
  intros params Hget Hok Hempty.
  unfold fetch_data, bind, emit, lift, raise. fold params.
  rewrite Hget, (raise_for_status_ok _ Hok), Hempty. reflexivity.
Qed.

Lemma empty_body_raises_witness :
  fetch_data (world_of (inr (ok_response ""))) ["STA"] 5 "auto" 11 []
  = (inl (ValueError empty_response_msg),
     [HttpGet FUSED_API_URL (query_params ["STA"] 5 "auto" 11)]).
Proof.
  apply (empty_body_raises (world_of (inr (ok_response ""))) ["STA"] 5 "auto" 11
           (ok_response "") []).
  - reflexivity.
  - simpl. lia.
  - reflexivity.
Defined.

(** C7, amended.  When [pd.read_csv] fails on the (non-empty) body, what
    [fetch_data] does depends on the failure.  On [EmptyDataError] it shows
    an error message that ends with the first 1000 characters of the body at
    most, and raises [ValueError("Empty or invalid CSV data received from the
    API")].  Any other failure of the parser goes on as it is, and no copy
    of the body is shown. *)
Theorem parse_failure_reported (w : World) (stadium_codes : list string)
  (travel_time : Z) (travel_mode : string) (resolution : Z) (resp : Response)
  (e : exn) (log : list event) :
  let params := query_params stadium_codes travel_time travel_mode resolution in
  let content := PyStr.strip (text resp) in
  let sent := (log ++ [HttpGet FUSED_API_URL params])%list in
  requests_get w FUSED_API_URL params = inr resp ->
  raise_for_status resp = None ->
  content <> "" ->
  read_csv w content = inl e ->
  fetch_data w stadium_codes travel_time travel_mode resolution log
  = match e with
    | EmptyDataError _ =>
        (inl (ValueError invalid_csv_msg),
         (sent ++ [StError (invalid_csv_diag ++ PyStr.prefix_to 1000 content)])%list)
    | _ => (inl e, sent)
    end
  /\ (String.length (PyStr.prefix_to 1000 content) <= 1000)%nat
  /\ prefix (PyStr.prefix_to 1000 content) content = true
  /\ ((String.length content <= 1000)%nat -> PyStr.prefix_to 1000 content = content).
Proof.
  intros params content sent Hget Hok Hne Hcsv.
  split; [|split; [apply prefix_to_length|split;
                   [apply prefix_to_prefix|apply prefix_to_short]]].
  unfold fetch_data, bind, emit, lift, raise, try_except.
  fold params. rewrite Hget, Hok. fold content.
  apply String.eqb_neq in Hne. rewrite Hne, Hcsv.
  destruct e; reflexivity.
Qed.

Lemma parse_failure_reported_witness :
  fetch_data (world_of (inr (ok_response ragged_body))) ["STA"] 5 "auto" 11 []
  = (inl (ParserError ragged_msg),
     [HttpGet FUSED_API_URL (query_params ["STA"] 5 "auto" 11)]).
Proof.
  refine (proj1 (parse_failure_reported (world_of (inr (ok_response ragged_body)))
                   ["STA"] 5 "auto" 11 (ok_response ragged_body)
                   (ParserError ragged_msg) []
                   eq_refl eq_refl _ eq_refl)).
  discriminate.
Defined.

(** C7 as stated fails: on an answer with a ragged line the parser raises
    [ParserError], and [fetch_data] lets it through: it raises no
    [ValueError] and shows no copy of the body. *)
Lemma parser_error_not_reported :
  read_csv (world_of (inr (ok_response ragged_body))) ragged_body
  = inl (ParserError ragged_msg)
  /\ fetch_data (world_of (inr (ok_response ragged_body))) ["STA"] 5 "auto" 11 []
     = (inl (ParserError ragged_msg),
        [HttpGet FUSED_API_URL (query_params ["STA"] 5 "auto" 11)]).
Proof. split; now vm_compute. Qed.

(* ================================================================== *)
(** * The request/render cycle *)
(* ================================================================== *)

Lemma cycle_body_sends (w : World) (stadium_data : list VenueRecord) (ui : Inputs)
  (codes : list string) (log : list event) :
  exists r rest,
    cycle_body w stadium_data ui codes log
    = (r, (log ++ [StWrite (fetching_msg codes);
                   HttpGet FUSED_API_URL
                     (query_params codes (travel_time ui) (travel_mode ui) 11)]
               ++ rest)%list).
Proof.
  unfold cycle_body, bind, emit.
  destruct (fetch_data_sends w codes (travel_time ui) (travel_mode ui) 11
              (log ++ [StWrite (fetching_msg codes)])%list) as (r & rest & ->).
  rewrite <- app_assoc. cbn [app].
  destruct r as [e|data]; [now eexists _, rest|].
  unfold lift. destruct (build_layers _ _ _ _) as [e|[[layer scatter_layer] view_state]];
    [now eexists _, rest|].
  destruct (pydeck_chart w _) as [e|]; unfold raise; [now eexists _, rest|].
  eexists _, (rest ++ [_])%list.
  f_equal. rewrite <- !app_assoc. reflexivity.
Qed.

(** The [try] statement ends without an exception, whatever its body did. *)
Lemma cycle_outcome (w : World) (stadium_data : list VenueRecord) (ui : Inputs)
  (codes : list string) (log : list event) :
  (exists l,
      cycle_body w stadium_data ui codes log = (inr tt, l)
      /\ cycle w stadium_data ui codes log = (inr tt, l))
  \/ (exists e l,
         cycle_body w stadium_data ui codes log = (inl e, l)
         /\ cycle w stadium_data ui codes log
            = (inr tt, (l ++ [StError ("An error occurred: " ++ exn_str e);
                              StWrite retry_msg])%list)).
Proof.
  unfold cycle, try_except.
  destruct (cycle_body w stadium_data ui codes log) as [[e|[]] l].
  - right. exists e, l. split; [reflexivity|].
    unfold on_exception, bind, emit. now rewrite <- app_assoc.
  - left. now exists l.
Qed.

Lemma cycle_sends (w : World) (stadium_data : list VenueRecord) (ui : Inputs)
  (codes : list string) (log : list event) :
  exists rest,
    cycle w stadium_data ui codes log
    = (inr tt, (log ++ [StWrite (fetching_msg codes);
                        HttpGet FUSED_API_URL
                          (query_params codes (travel_time ui) (travel_mode ui) 11)]
                    ++ rest)%list).
Proof.
  destruct (cycle_body_sends w stadium_data ui codes log) as (r & rest & Hb).
  destruct (cycle_outcome w stadium_data ui codes log)
    as [(l & Hb' & ->)|(e & l & Hb' & ->)];
    rewrite Hb in Hb'; injection Hb' as _ <-.
  - now exists rest.
  - eexists (rest ++ [_; _])%list. f_equal. now rewrite <- !app_assoc.
Qed.

(** C4, amended.  On a trigger with no venue selected the script validates
    nothing: it announces the fetch for an empty list of codes and sends the
    request, whose parameters are the five scalar keys alone; whatever
    happens next is shown after that, and the run ends without an
    exception. *)
Theorem empty_selection_queries (w : World) (ui : Inputs)
  (stadium_data : list VenueRecord) (log : list event) :
  venue_table w = inr stadium_data ->
  selected_stadiums ui = [] ->
  button ui = true ->
  exists rest,
    main w ui log
    = (inr tt,
       (log ++ [StTitle title_msg; StSidebarHeader "Parameters";
                StWrite "Fetching data for stadium codes: ";
                HttpGet FUSED_API_URL
                  (base_params (travel_time ui) (travel_mode ui) 11)]
            ++ rest)%list).
Proof.
  intros Htable Hsel Hbutton.
  unfold main, load_stadium_data, bind, emit, lift, ret.
  rewrite Htable, Hsel, Hbutton. cbn [traverse].
  destruct (cycle_sends w stadium_data ui []
              ((log ++ [StTitle title_msg]) ++ [StSidebarHeader "Parameters"])%list)
    as (rest & ->).
  exists rest. f_equal. rewrite <- !app_assoc. reflexivity.
Qed.

Lemma empty_selection_queries_witness :
  exists rest,
    main sample_world (inputs_of []) []
    = (inr tt,
       [StTitle title_msg; StSidebarHeader "Parameters";
        StWrite "Fetching data for stadium codes: ";
        HttpGet FUSED_API_URL (base_params 5 "auto" 11)] ++ rest)%list.
Proof.
  exact (empty_selection_queries sample_world (inputs_of []) [stade_a] []
           eq_refl eq_refl eq_refl).
Defined.

(** C4 as stated fails: in the sample world, a trigger with no venue
    selected sends the request and shows no error message at all. *)
Lemma empty_selection_sends_request :
  In (HttpGet FUSED_API_URL (base_params 5 "auto" 11))
     (snd (main sample_world (inputs_of []) []))
  /\ forall s, ~ In (StError s) (snd (main sample_world (inputs_of []) [])).
Proof.
  split.
  - vm_compute. tauto.
  - intros s. vm_compute. intuition discriminate.
Qed.

(** Every name of the venue table has a code in [name_to_code]. *)
Lemma name_to_code_known (stadium_data : list VenueRecord) (name : string) :
  In name (map Nom_Site stadium_data) ->
  exists code, lookup_code (name_to_code_of stadium_data) name = inr code.
Proof.
  unfold name_to_code_of, lookup_code.
  enough (G : forall d,
             In name (map Nom_Site stadium_data) \/ dict_get d name <> None ->
             dict_get (fold_left (fun d v => dict_set d (Nom_Site v) (Code_Site v))
                         stadium_data d) name <> None).
  { intros Hin. specialize (G [] (or_introl Hin)).
    destruct (dict_get _ name) as [c|]; [now exists c|contradiction]. }
  induction stadium_data as [|v r IH]; intros d [Hin|Hd]; simpl in *.
  - contradiction.
  - exact Hd.
  - destruct Hin as [<-|Hin]; apply IH; [right|now left].
    now rewrite dict_get_set_same.
  - apply IH. right.
    destruct (String.eqb (Nom_Site v) name) eqn:E.
    + apply String.eqb_eq in E. subst. now rewrite dict_get_set_same.
    + now rewrite dict_get_set_other.
Qed.

Lemma lookup_codes_known (stadium_data : list VenueRecord) (selected : list string) :
  incl selected (map Nom_Site stadium_data) ->
  exists codes, traverse (lookup_code (name_to_code_of stadium_data)) selected = inr codes.
Proof.
  induction selected as [|n r IH]; intros Hincl; simpl; [now exists []|].
  destruct (name_to_code_known stadium_data n) as (c & ->); [apply Hincl; now left|].
  destruct IH as (cs & ->); [intros x Hx; apply Hincl; now right|].
  now exists (c :: cs).
Qed.

Lemma name_to_code_fold_other (post : list VenueRecord) (name : string) :
  forall d : dict string,
    ~ In name (map Nom_Site post) ->
    dict_get (fold_left (fun d v => dict_set d (Nom_Site v) (Code_Site v)) post d) name
    = dict_get d name.
Proof.
  induction post as [|v r IH]; intros d Hnot; simpl in *; [reflexivity|].
  rewrite IH by tauto.
  apply dict_get_set_other. apply String.eqb_neq. tauto.
Qed.

Lemma name_to_code_unknown (stadium_data : list VenueRecord) (name : string) :
  ~ In name (map Nom_Site stadium_data) ->
  lookup_code (name_to_code_of stadium_data) name = inl (KeyError name).
Proof.
  intros Hnot. unfold lookup_code, name_to_code_of.
  now rewrite name_to_code_fold_other.
Qed.

Lemma traverse_app_raises {A B : Type} (f : A -> exn + B) (l r : list A) (a : A)
  (bs : list B) (e : exn) :
  traverse f l = inr bs -> f a = inl e -> traverse f (l ++ a :: r) = inl e.
Proof.
  revert bs; induction l as [|x l IH]; intros bs; simpl.
  - intros _ ->. reflexivity.
  - destruct (f x) as [e0|b]; [discriminate|].
    destruct (traverse f l) as [e0|bs'] eqn:E; [discriminate|].
    intros _ Ha. now rewrite (IH bs' eq_refl Ha).
Qed.





(** A server error is shown, not raised. *)
Example server_error_shown :
  main (world_of (inr {| status_code := 500; reason := "Internal Server Error";
                         url := "u"; text := "" |}))
       (inputs_of ["Stade A"]) []
  = (inr tt,
     [StTitle title_msg; StSidebarHeader "Parameters";
      StSubheader "Selected Stadiums";
      StWrite "Fetching data for stadium codes: STA";
      HttpGet FUSED_API_URL (query_params ["STA"] 5 "auto" 11);
      StError "An error occurred: 500 Server Error: Internal Server Error for url: u";
      StWrite retry_msg]).
Proof. now vm_compute. Qed.

(** A transport failure is shown, not raised. *)
Example network_error_shown :
  main (world_of (inl (RequestException "Connection refused")))
       (inputs_of ["Stade A"]) []
  = (inr tt,
     [StTitle title_msg; StSidebarHeader "Parameters";
      StSubheader "Selected Stadiums";
      StWrite "Fetching data for stadium codes: STA";
      HttpGet FUSED_API_URL (query_params ["STA"] 5 "auto" 11);
      StError "An error occurred: Connection refused";
      StWrite retry_msg]).
Proof. now vm_compute. Qed.

(** All counts zero: the user is shown the failed conversion. *)
Example zero_counts_shown :
  main (world_of (inr (ok_response zero_body))) (inputs_of ["Stade A"]) []
  = (inr tt,
     [StTitle title_msg; StSidebarHeader "Parameters";
      StSubheader "Selected Stadiums";
      StWrite "Fetching data for stadium codes: STA";
      HttpGet FUSED_API_URL (query_params ["STA"] 5 "auto" 11);
      StError "An error occurred: cannot convert float NaN to integer";
      StWrite retry_msg]).
Proof. now vm_compute. Qed.

(* ================================================================== *)
(** * The two conversions *)
(* ================================================================== *)

Lemma traverse_length {A B : Type} (f : A -> exn + B) (l : list A) (bs : list B) :
  traverse f l = inr bs -> List.length bs = List.length l.
Proof.
  revert bs; induction l as [|a r IH]; intros bs; simpl.
  - now intros [= <-].
  - destruct (f a) as [e|b]; [discriminate|].
    destruct (traverse f r) as [e|bs']; [discriminate|].
    intros [= <-]. simpl. f_equal. now apply IH.
Qed.

(** The processing of a table with at least one row, step by step. *)
Lemma process_data_rows (w : World) (data data' : DataFrame) (raw : list cell) :
  dict_get data "cnt" = Some raw ->
  raw <> [] ->
  process_data w data = inr data' ->
  exists (ids : list cell) (cnts : list float) (results : list (float * list Z)),
    dict_get data "cell_id" = Some ids
    /\ traverse (astype_float w) raw = inr cnts
    /\ traverse (get_elevation_and_color (PyFloat.nanmax cnts)) cnts = inr results
    /\ data'
       = dict_set
           (dict_set
              (dict_set (dict_set data "cell_id" (map (astype_str w) ids))
                 "cnt" (map CFloat cnts))
              "elevation" (map (fun r => CFloat (fst r)) results))
           "color" (map (fun r => CList (snd r)) results).
Proof.
  intros Hcnt Hne. unfold process_data, column.
  destruct (dict_get data "cell_id") as [ids|]; cbn [bindE]; [|discriminate].
  rewrite dict_get_set_other by reflexivity. rewrite Hcnt. cbn [bindE].
  destruct (traverse (astype_float w) raw) as [e|cnts] eqn:Hconv; cbn [bindE];
    [discriminate|].
  destruct (traverse (get_elevation_and_color _) cnts) as [e|results] eqn:Hres;
    cbn [bindE]; [discriminate|].
  apply traverse_length in Hconv as Hlen.
  apply traverse_length in Hres as Hlen'.
  destruct results as [|r rs].
  - destruct raw; [now contradiction Hne|]. simpl in *. lia.
  - cbn [unzip_results bindE fst snd]. intros [= <-].
    exists ids, cnts, (r :: rs). repeat split; assumption || reflexivity.
Qed.

(** After lines 92-93, on a table with at least one row, the column
    [cell_id] holds one converted cell per row that was read, a string that
    was read being kept as it is and every value that is not missing
    becoming a string; and the column [cnt] holds floats, one per row. *)
Lemma conversion_types (w : World) (data data' : DataFrame) (ids raw : list cell) :
  dict_get data "cell_id" = Some ids ->
  dict_get data "cnt" = Some raw ->
  raw <> [] ->
  process_data w data = inr data' ->
  dict_get data' "cell_id" = Some (map (astype_str w) ids)
  /\ (forall s, astype_str w (CStr s) = CStr s)
  /\ (forall c, is_missing c = false -> astype_str w c = CStr (str_of_cell w c))
  /\ exists cnts,
       traverse (astype_float w) raw = inr cnts
       /\ dict_get data' "cnt" = Some (map CFloat cnts)
       /\ List.length cnts = List.length raw.
Proof.
  intros Hid Hcnt Hne Hrun.
  destruct (process_data_rows w data data' raw Hcnt Hne Hrun)
    as (ids' & cnts & results & Hid' & Hconv & _ & ->).
  rewrite Hid in Hid'. injection Hid' as <-.
  split; [|split; [reflexivity|split]].
  - rewrite !dict_get_set_other by reflexivity. apply dict_get_set_same.
  - intros c Hc. unfold astype_str. now rewrite Hc.
  - exists cnts. split; [exact Hconv|]. split.
    + rewrite !dict_get_set_other by reflexivity. apply dict_get_set_same.
    + now apply traverse_length in Hconv.
Qed.

(** An answer that is a header and no row, one of its columns named with
    two letters: the unpacking finds two tuples of letters, the assignment
    gives the table one row per column, and the processing returns. *)
Example header_only_answer (w : World) :
  process_data w [("cell_id", []); ("cnt", []); ("ab", [])]
  = inr [ ("cell_id", [CFloat nan; CFloat nan; CFloat nan]);
          ("cnt", [CFloat nan; CFloat nan; CFloat nan]);
          ("ab", [CFloat nan; CFloat nan; CFloat nan]);
          ("elevation", [CStr "c"; CStr "c"; CStr "a"]);
          ("color", [CStr "e"; CStr "n"; CStr "b"]) ].
Proof. reflexivity. Qed.

(** Without such a column the unpacking raises. *)
Example header_only_plain (w : World) :
  process_data w [("cell_id", []); ("cnt", [])]
  = inl (ValueError "too many values to unpack (expected 2)").
Proof. reflexivity. Qed.

(* ================================================================== *)
(** * Further properties of [fetch_data] *)
(* ================================================================== *)

Lemma raise_for_status_none (r : Response) :
  raise_for_status r = None <-> ~ 400 <= status_code r < 600.
Proof.
  unfold raise_for_status.
  destruct (400 <=? status_code r) eqn:E1, (status_code r <? 500) eqn:E2,
    (500 <=? status_code r) eqn:E3, (status_code r <? 600) eqn:E4; simpl;
    try apply Z.leb_le in E1; try apply Z.leb_gt in E1;
    try apply Z.ltb_lt in E2; try apply Z.ltb_ge in E2;
    try apply Z.leb_le in E3; try apply Z.leb_gt in E3;
    try apply Z.ltb_lt in E4; try apply Z.ltb_ge in E4;
    split; intros H; try discriminate; try reflexivity; try lia.
Qed.

Lemma raise_for_status_error (r : Response) :
  400 <= status_code r < 600 -> raise_for_status r = Some (HTTPError (status_msg r)).
Proof.
  intros H. unfold raise_for_status, status_msg.
  destruct (Z.ltb_spec (status_code r) 500) as [Hlt|Hge].
  - replace (400 <=? status_code r) with true by (symmetry; apply Z.leb_le; lia).
    reflexivity.
  - replace (400 <=? status_code r) with true by (symmetry; apply Z.leb_le; lia).
    replace (500 <=? status_code r) with true by (symmetry; apply Z.leb_le; lia).
    replace (status_code r <? 600) with true by (symmetry; apply Z.ltb_lt; lia).
    reflexivity.
Qed.

(** X1.  [fetch_data] returns a table exactly when the request was answered,
    the status is outside 400..599, the body is not blank, and the parser
    returned that table on the stripped body; the request is then all that
    was logged.  Nothing else makes it return. *)
Theorem fetch_data_returns_iff (w : World) (stadium_codes : list string)
  (travel_time : Z) (travel_mode : string) (resolution : Z)
  (log log' : list event) (data : DataFrame) :
  let params := query_params stadium_codes travel_time travel_mode resolution in
  fetch_data w stadium_codes travel_time travel_mode resolution log = (inr data, log')
  <-> exists resp,
        requests_get w FUSED_API_URL params = inr resp
        /\ ~ 400 <= status_code resp < 600
        /\ PyStr.strip (text resp) <> ""
        /\ read_csv w (PyStr.strip (text resp)) = inr data
        /\ log' = (log ++ [HttpGet FUSED_API_URL params])%list.
Proof.
  intros params. unfold fetch_data, bind, emit, lift, raise, try_except. fold params.
  split.
  - destruct (requests_get w FUSED_API_URL params) as [e|resp]; [discriminate|].
    destruct (raise_for_status resp) as [e|] eqn:Hst; [discriminate|].
    destruct (String.eqb_spec (PyStr.strip (text resp)) "") as [|Hne]; [discriminate|].
    destruct (read_csv w _) as [e|df] eqn:Hcsv.
    + destruct e; discriminate.
    + intros [= <- <-]. exists resp. repeat split; try assumption.
      now apply raise_for_status_none.
  - intros (resp & -> & Hst & Hne & Hcsv & ->).
    apply raise_for_status_none in Hst. rewrite Hst.
    apply String.eqb_neq in Hne. now rewrite Hne, Hcsv.
Qed.

(** X2.  An answer with a status in 400..599 makes [fetch_data] raise
    [HTTPError] with the status line of [raise_for_status] ("Client Error"
    below 500, "Server Error" from 500 on); the body is neither examined nor
    parsed. *)
Theorem http_error_raises (w : World) (stadium_codes : list string)
  (travel_time : Z) (travel_mode : string) (resolution : Z) (resp : Response)
  (log : list event) :
  let params := query_params stadium_codes travel_time travel_mode resolution in
  requests_get w FUSED_API_URL params = inr resp ->
  400 <= status_code resp < 600 ->
  fetch_data w stadium_codes travel_time travel_mode resolution log
  = (inl (HTTPError (status_msg resp)), (log ++ [HttpGet FUSED_API_URL params])%list).
Proof.
  intros params Hget Hst. unfold fetch_data, bind, emit, lift, raise. fold params.
  now rewrite Hget, (raise_for_status_error _ Hst).
Qed.

Lemma http_error_raises_witness :
  fetch_data (world_of (inr {| status_code := 404; reason := "Not Found";
                               url := "u"; text := sample_body |}))
    ["STA"] 5 "auto" 11 []
  = (inl (HTTPError "404 Client Error: Not Found for url: u"),
     [HttpGet FUSED_API_URL (query_params ["STA"] 5 "auto" 11)]).
Proof.
  apply (http_error_raises
           (world_of (inr {| status_code := 404; reason := "Not Found";
                             url := "u"; text := sample_body |}))
           ["STA"] 5 "auto" 11 _ [] eq_refl).
  simpl. lia.
Defined.

Lemma lstrip_blank (l s : string) :
  blank l = true -> PyStr.lstrip_by PyStr.is_space (l ++ s) = PyStr.lstrip_by PyStr.is_space s.
Proof.
  induction l as [|c l IH]; simpl; [reflexivity|].
  intros H. apply andb_true_iff in H as [Hc Hl]. rewrite Hc. now apply IH.
Qed.

Lemma rstrip_blank_only (r : string) :
  blank r = true -> PyStr.rstrip_by PyStr.is_space r = "".
Proof.
  induction r as [|c r IH]; simpl; [reflexivity|].
  intros H. apply andb_true_iff in H as [Hc Hr]. now rewrite IH, Hc.
Qed.

Lemma rstrip_blank (s r : string) :
  blank r = true -> PyStr.rstrip_by PyStr.is_space (s ++ r) = PyStr.rstrip_by PyStr.is_space s.
Proof.
  intros Hr. induction s as [|c s IH]; simpl.
  - now apply rstrip_blank_only.
  - now rewrite IH.
Qed.

Lemma lstrip_blank_only (r : string) :
  blank r = true -> PyStr.lstrip_by PyStr.is_space r = "".
Proof.
  induction r as [|c r IH]; simpl; [reflexivity|].
  intros H. apply andb_true_iff in H as [Hc Hr]. rewrite Hc. now apply IH.
Qed.

Lemma lstrip_app_blank (s r : string) :
  blank r = true ->
  PyStr.lstrip_by PyStr.is_space (s ++ r)
  = match PyStr.lstrip_by PyStr.is_space s with
    | EmptyString => EmptyString
    | t => t ++ r
    end.
Proof.
  intros Hr. induction s as [|c s IH]; simpl.
  - now apply lstrip_blank_only.
  - destruct (PyStr.is_space c); [exact IH|reflexivity].
Qed.

(** White space around a string does not change what [strip] returns. *)
Lemma strip_padded (l s r : string) :
  blank l = true -> blank r = true -> PyStr.strip (l ++ s ++ r) = PyStr.strip s.
Proof.
  intros Hl Hr. unfold PyStr.strip.
  rewrite (lstrip_blank l _ Hl), (lstrip_app_blank s r Hr).
  destruct (PyStr.lstrip_by PyStr.is_space s) as [|c t]; [reflexivity|].
  change (String c t ++ r) with ((String c t) ++ r).
  now rewrite rstrip_blank.
Qed.

(** X3.  White space around the body of the answer changes nothing: two
    answers that differ only by leading and trailing white space in the body
    make [fetch_data] end the same way, with the same log. *)
Theorem body_padding_ignored (w w' : World) (stadium_codes : list string)
  (travel_time : Z) (travel_mode : string) (resolution : Z) (resp : Response)
  (l r : string) (log : list event) :
  let params := query_params stadium_codes travel_time travel_mode resolution in
  let padded :=
    {| status_code := status_code resp; reason := reason resp; url := url resp;
       text := l ++ text resp ++ r |} in
  requests_get w FUSED_API_URL params = inr resp ->
  requests_get w' FUSED_API_URL params = inr padded ->
  read_csv w' = read_csv w ->
  blank l = true -> blank r = true ->
  fetch_data w' stadium_codes travel_time travel_mode resolution log
  = fetch_data w stadium_codes travel_time travel_mode resolution log.
Proof.
  intros params padded Hget Hget' Hcsv Hl Hr.
  unfold fetch_data, bind, emit, lift, raise, try_except. fold params.
  rewrite Hget, Hget', Hcsv.
  change (raise_for_status padded) with (raise_for_status resp).
  change (text padded) with (l ++ text resp ++ r).
  now rewrite (strip_padded l (text resp) r Hl Hr).
Qed.

Lemma body_padding_ignored_witness :
  fetch_data (world_of (inr (ok_response (" " ++ sample_body ++ newline))))
    ["STA"] 5 "auto" 11 []
  = fetch_data sample_world ["STA"] 5 "auto" 11 [].
Proof.
  exact (body_padding_ignored sample_world
           (world_of (inr (ok_response (" " ++ sample_body ++ newline))))
           ["STA"] 5 "auto" 11 (ok_response sample_body) " " newline []
           eq_refl eq_refl eq_refl eq_refl eq_refl).
Defined.

(* ================================================================== *)
(** * Reading the codes back from the parameters *)
(* ================================================================== *)

Lemma indexed_from_get_none (codes : list string) :
  forall (i n : nat),
    (n < i \/ i + List.length codes <= n)%nat ->
    dict_get (indexed_from i codes) (code_key n) = None.
Proof.
  induction codes as [|c r IH]; intros i n H; cbn [indexed_from dict_get];
    [reflexivity|].
  rewrite code_key_neqb by (simpl in H; lia).
  apply IH. simpl in H. lia.
Qed.

(** X4.  The codes can be read back from the parameters: the key
    [stadium_codes[i]] holds the i-th code when there is one, and is absent
    otherwise, so that the parameters carry the list of codes, no more and
    no less. *)
Theorem query_params_read_back (stadium_codes : list string) (travel_time : Z)
  (travel_mode : string) (resolution : Z) (i : nat) :
  dict_get (query_params stadium_codes travel_time travel_mode resolution) (code_key i)
  = match nth_error stadium_codes i with
    | Some c => Some (PStr c)
    | None => None
    end.
Proof.
  rewrite query_params_app.
  rewrite dict_get_app_fresh by apply base_params_no_code_key.
  destruct (nth_error stadium_codes i) as [c|] eqn:E.
  - now apply (indexed_from_get stadium_codes 0 i).
  - apply indexed_from_get_none. apply nth_error_None in E. lia.
Qed.

(* ================================================================== *)
(** * Further properties of [hex_to_rgb] *)
(* ================================================================== *)

Lemma hex_to_rgb_digits (c0 c1 c2 c3 c4 c5 : ascii) (d0 d1 d2 d3 d4 d5 : Z) :
  PyStr.hex_val c0 = Some d0 -> PyStr.hex_val c1 = Some d1 ->
  PyStr.hex_val c2 = Some d2 -> PyStr.hex_val c3 = Some d3 ->
  PyStr.hex_val c4 = Some d4 -> PyStr.hex_val c5 = Some d5 ->
  hex_to_rgb (String c0 (String c1 (String c2 (String c3 (String c4 (String c5 ""))))))
  = Some (16 * d0 + d1, 16 * d2 + d3, 16 * d4 + d5).
Proof.
  intros H0 H1 H2 H3 H4 H5.
  unfold hex_to_rgb, PyStr.lstrip_hash. cbn [PyStr.lstrip_by].
  destruct (hex_val_char _ _ H0) as (_ & -> & _).
  unfold PyStr.slice2. cbn [substring].
  now rewrite (int16_pair _ _ _ _ H0 H1), (int16_pair _ _ _ _ H2 H3),
    (int16_pair _ _ _ _ H4 H5).
Qed.

Lemma int16_single (c : ascii) (d : Z) :
  PyStr.hex_val c = Some d -> PyStr.int16 (String c "") = Some d.
Proof.
  intros H. destruct (hex_val_char _ _ H) as (S0 & _ & P0 & M0 & U0 & _).
  unfold PyStr.int16. cbn [PyStr.lstrip_by]. rewrite S0.
  cbn [PyStr.rstrip_by]. rewrite S0, P0, M0. cbn [PyStr.hex_digits].
  now rewrite U0, H.
Qed.

Lemma lstrip_by_head (p : ascii -> bool) (s : string) :
  match PyStr.lstrip_by p s with
  | EmptyString => True
  | String c _ => p c = false
  end.
Proof.
  induction s as [|c s IH]; simpl; [exact I|].
  destruct (p c) eqn:E; [exact IH|exact E].
Qed.

Lemma lstrip_by_fixed (p : ascii -> bool) (s : string) :
  match s with EmptyString => True | String c _ => p c = false end ->
  PyStr.lstrip_by p s = s.
Proof. destruct s as [|c s]; simpl; [reflexivity|]. now intros ->. Qed.

(** X5.  A string with fewer than five characters after its leading [#]s has
    no third pair: [hex_to_rgb] raises (here [None]). *)
Theorem hex_to_rgb_too_short (hex_color : string) :
  (String.length (PyStr.lstrip_hash hex_color) <= 4)%nat ->
  hex_to_rgb hex_color = None.
Proof.
  intros H. unfold hex_to_rgb.
  assert (E : PyStr.slice2 4 (PyStr.lstrip_hash hex_color) = "").
  { destruct (PyStr.lstrip_hash hex_color) as [|a [|b [|c [|d [|e t]]]]];
      try reflexivity. simpl in H. lia. }
  rewrite E.
  destruct (PyStr.int16 (PyStr.slice2 0 _)); [|reflexivity].
  destruct (PyStr.int16 (PyStr.slice2 2 _)); reflexivity.
Qed.

Lemma hex_to_rgb_too_short_witness :
  hex_to_rgb "#fff" = None /\ hex_to_rgb "" = None.
Proof.
  split.
  - apply (hex_to_rgb_too_short "#fff"). simpl. lia.
  - apply (hex_to_rgb_too_short ""). simpl. lia.
Defined.

(** X6.  [hex_to_rgb] looks at nothing but the first six characters that
    follow the leading [#]s: whatever comes after them is ignored, not
    rejected. *)
Theorem hex_to_rgb_reads_six (hex_color : string) :
  hex_to_rgb hex_color
  = hex_to_rgb (PyStr.prefix_to 6 (PyStr.lstrip_hash hex_color)).
Proof.
  unfold hex_to_rgb.
  pose proof (lstrip_by_head (fun c => Ascii.eqb c "#") hex_color) as Hhead.
  fold (PyStr.lstrip_hash hex_color) in Hhead.
  set (t := PyStr.lstrip_hash hex_color) in *.
  assert (E : PyStr.lstrip_hash (PyStr.prefix_to 6 t) = PyStr.prefix_to 6 t).
  { apply lstrip_by_fixed. destruct t as [|c t']; [exact I|exact Hhead]. }
  rewrite E. unfold PyStr.slice2.
  destruct t as [|a [|b [|c [|d [|e [|f [|g r]]]]]]];
    cbn [substring PyStr.prefix_to]; reflexivity.
Qed.

(** X7.  Five hexadecimal digits are accepted too: the last digit alone is
    read as the third component. *)
Theorem hex_to_rgb_five_digits (c0 c1 c2 c3 c4 : ascii) (d0 d1 d2 d3 d4 : Z) :
  PyStr.hex_val c0 = Some d0 -> PyStr.hex_val c1 = Some d1 ->
  PyStr.hex_val c2 = Some d2 -> PyStr.hex_val c3 = Some d3 ->
  PyStr.hex_val c4 = Some d4 ->
  hex_to_rgb (String c0 (String c1 (String c2 (String c3 (String c4 "")))))
  = Some (16 * d0 + d1, 16 * d2 + d3, d4).
Proof.
  intros H0 H1 H2 H3 H4.
  unfold hex_to_rgb, PyStr.lstrip_hash. cbn [PyStr.lstrip_by].
  destruct (hex_val_char _ _ H0) as (_ & -> & _).
  unfold PyStr.slice2. cbn [substring].
  now rewrite (int16_pair _ _ _ _ H0 H1), (int16_pair _ _ _ _ H2 H3),
    (int16_single _ _ H4).
Qed.

Lemma hex_to_rgb_five_digits_witness : hex_to_rgb "ff80a" = Some (255, 128, 10).
Proof.
  exact (hex_to_rgb_five_digits "f" "f" "8" "0" "a" 15 15 8 0 10
           eq_refl eq_refl eq_refl eq_refl eq_refl).
Defined.

Lemma hex_val_hex_char (d : Z) : 0 <= d <= 15 -> PyStr.hex_val (hex_char d) = Some d.
Proof.
  intros H.
  assert (C : d = 0 \/ d = 1 \/ d = 2 \/ d = 3 \/ d = 4 \/ d = 5 \/ d = 6 \/ d = 7
              \/ d = 8 \/ d = 9 \/ d = 10 \/ d = 11 \/ d = 12 \/ d = 13 \/ d = 14
              \/ d = 15) by lia.
  repeat (destruct C as [->|C]; [reflexivity|]). now subst.
Qed.

(** X8.  Every colour has a name: for components between 0 and 255 there is a
    string of six characters that [hex_to_rgb] maps to them, with or without a
    leading [#]. *)
Theorem hex_to_rgb_onto (r g b : Z) :
  0 <= r <= 255 -> 0 <= g <= 255 -> 0 <= b <= 255 ->
  exists s, String.length s = 6%nat
            /\ hex_to_rgb s = Some (r, g, b)
            /\ hex_to_rgb (String "#" s) = Some (r, g, b).
Proof.
  intros Hr Hg Hb.
  assert (D : forall v, 0 <= v <= 255 ->
                PyStr.hex_val (hex_char (v / 16)) = Some (v / 16)
                /\ PyStr.hex_val (hex_char (v mod 16)) = Some (v mod 16)
                /\ 16 * (v / 16) + v mod 16 = v).
  { intros v Hv.
    pose proof (Z.div_mod v 16 ltac:(discriminate)) as Hdm.
    pose proof (Z.mod_pos_bound v 16 ltac:(lia)) as Hm.
    repeat split; [apply hex_val_hex_char; lia ..|lia]. }
  destruct (D r Hr) as (R1 & R2 & R3), (D g Hg) as (G1 & G2 & G3),
    (D b Hb) as (B1 & B2 & B3).
  exists (hex_pair r ++ hex_pair g ++ hex_pair b).
  assert (E : hex_to_rgb (hex_pair r ++ hex_pair g ++ hex_pair b) = Some (r, g, b)).
  { unfold hex_pair. cbn [append].
    rewrite (hex_to_rgb_digits _ _ _ _ _ _ _ _ _ _ _ _ R1 R2 G1 G2 B1 B2).
    now rewrite R3, G3, B3. }
  split; [reflexivity|]. split; [exact E|exact E].
Qed.

Lemma hex_to_rgb_onto_witness :
  exists s, String.length s = 6%nat
            /\ hex_to_rgb s = Some (200, 30, 0)
            /\ hex_to_rgb (String "#" s) = Some (200, 30, 0).
Proof. apply (hex_to_rgb_onto 200 30 0); lia. Defined.

Lemma lstrip_by_length (p : ascii -> bool) (s : string) :
  (String.length (PyStr.lstrip_by p s) <= String.length s)%nat.
Proof.
  induction s as [|c s IH]; simpl; [lia|]. destruct (p c); simpl; lia.
Qed.

Lemma rstrip_by_length (p : ascii -> bool) (s : string) :
  (String.length (PyStr.rstrip_by p s) <= String.length s)%nat.
Proof.
  induction s as [|c s IH]; simpl; [lia|].
  destruct (PyStr.rstrip_by p s); [destruct (p c)|]; simpl in *; lia.
Qed.

Lemma strip_length (s : string) :
  (String.length (PyStr.strip s) <= String.length s)%nat.
Proof.
  unfold PyStr.strip.
  pose proof (rstrip_by_length PyStr.is_space (PyStr.lstrip_by PyStr.is_space s)).
  pose proof (lstrip_by_length PyStr.is_space s). lia.
Qed.

Lemma substring_length (n m : nat) (s : string) :
  (String.length (substring n m s) <= m)%nat.
Proof.
  revert n m; induction s as [|c s IH]; intros [|n] [|m]; simpl; try lia.
  - specialize (IH 0%nat m). lia.
  - apply (IH n 0%nat).
  - apply (IH n (S m)).
Qed.

Lemma hex_val_range (c : ascii) (d : Z) : PyStr.hex_val c = Some d -> 0 <= d <= 15.
Proof. intros H. now destruct (hex_val_char _ _ H) as (_ & _ & _ & _ & _ & _ & _ & ?). Qed.

Lemma int16_short_bounds (s : string) (v : Z) :
  (String.length s <= 2)%nat -> PyStr.int16 s = Some v -> -15 <= v <= 255.
Proof.
  intros Hlen.
  pose proof (rstrip_by_length PyStr.is_int_space
                (PyStr.lstrip_by PyStr.is_int_space s)) as Hs.
  pose proof (lstrip_by_length PyStr.is_int_space s) as Hs'.
  unfold PyStr.int16.
  destruct (PyStr.rstrip_by PyStr.is_int_space
              (PyStr.lstrip_by PyStr.is_int_space s)) as [|c [|c' [|c'' r]]]; [| | |simpl in Hs; lia];
    cbn [PyStr.hex_digits];
    repeat match goal with
      | |- context [Ascii.eqb ?a ?b] => destruct (Ascii.eqb a b) eqn:?; cbn [andb orb PyStr.hex_digits]
      | |- context [PyStr.hex_val ?a] =>
          let H := fresh "Hv" in
          destruct (PyStr.hex_val a) eqn:H; [apply hex_val_range in H|]; cbn [PyStr.hex_digits]
      end;
    intros E; try discriminate E; injection E as <-; try lia;
    match goal with z : Z |- context [match ?z with _ => _ end] => destruct z; lia end.
Qed.


(** X9.  Whatever string it is given, the components [hex_to_rgb] returns lie
    between -15 and 255: a pair of characters is at most two digits, or a
    sign and one digit.  Only digits guarantee a result that is not
    negative. *)
Theorem hex_to_rgb_bounds (hex_color : string) (r g b : Z) :
  hex_to_rgb hex_color = Some (r, g, b) ->
  -15 <= r <= 255 /\ -15 <= g <= 255 /\ -15 <= b <= 255.
Proof.
  unfold hex_to_rgb, PyStr.slice2.
  set (t := PyStr.lstrip_hash hex_color).
  destruct (PyStr.int16 (substring 0 2 t)) as [r'|] eqn:Er; [|discriminate].
  destruct (PyStr.int16 (substring 2 2 t)) as [g'|] eqn:Eg; [|discriminate].
  destruct (PyStr.int16 (substring 4 2 t)) as [b'|] eqn:Eb; [|discriminate].
  intros [= <- <- <-].
  repeat split;
    first [ apply (int16_short_bounds _ _ (substring_length _ _ _) Er)
          | apply (int16_short_bounds _ _ (substring_length _ _ _) Eg)
          | apply (int16_short_bounds _ _ (substring_length _ _ _) Eb) ].
Qed.

Lemma hex_to_rgb_bounds_witness :
  hex_to_rgb "-f-f-f" = Some (-15, -15, -15)
  /\ (-15 <= -15 <= 255 /\ -15 <= -15 <= 255 /\ -15 <= -15 <= 255).
Proof.
  split; [reflexivity|].
  exact (hex_to_rgb_bounds "-f-f-f" (-15) (-15) (-15) eq_refl).
Defined.

(* ================================================================== *)
(** * Further properties of the processing of the rows *)
(* ================================================================== *)

Lemma SFeqb_refl (p : spec_float) : p <> S754_nan -> SFeqb p p = true.
Proof.
  unfold SFeqb. destruct p as [s|s| |s m e]; simpl; intros H; try reflexivity.
  - now destruct s.
  - contradiction.
  - destruct s; rewrite Z.compare_refl;
      change (PosDef.Pos.compare_cont Eq m m) with (Pos.compare m m);
      now rewrite Pos.compare_refl.
Qed.

Lemma is_nan_spec (x : float) : is_nan x = true -> Prim2SF x = S754_nan.
Proof.
  unfold is_nan. rewrite eqb_spec. intros H.
  destruct (Prim2SF x) as [s|s| |s m e] eqn:E; try reflexivity;
    rewrite SFeqb_refl in H by discriminate; discriminate.
Qed.

(** A NaN count, or a NaN maximum, makes the derivation of a row raise. *)
Lemma nan_row_raises (max_cnt row_cnt : float) :
  is_nan row_cnt = true \/ is_nan max_cnt = true ->
  get_elevation_and_color max_cnt row_cnt = inl (ValueError nan_msg).
Proof.
  intros H. unfold get_elevation_and_color, PyFloat.to_int.
  rewrite FloatFacts.nan_intensity; [reflexivity|].
  rewrite div_spec. destruct H as [H|H]; apply is_nan_spec in H; rewrite H.
  - reflexivity.
  - unfold SF64div. now destruct (Prim2SF row_cnt).
Qed.

Lemma traverse_some_raises {A B : Type} (f : A -> exn + B) (l : list A) (a : A) (e : exn) :
  In a l -> f a = inl e -> exists e', traverse f l = inl e'.
Proof.
  induction l as [|x r IH]; intros Hin Hf; [contradiction|]. simpl.
  destruct (f x) as [e0|b] eqn:Ex; [now exists e0|].
  destruct Hin as [->|Hin]; [congruence|].
  destruct (IH Hin Hf) as (e' & ->). now exists e'.
Qed.

(** X10.  One missing count is enough to lose the whole answer: when the
    count of some row is NaN, the processing raises and no table comes out,
    whatever the other rows hold. *)
Theorem nan_count_fails (w : World) (data : DataFrame) (ids raw : list cell)
  (cnts : list float) (c : float) :
  dict_get data "cell_id" = Some ids ->
  dict_get data "cnt" = Some raw ->
  traverse (astype_float w) raw = inr cnts ->
  In c cnts -> is_nan c = true ->
  exists e, process_data w data = inl e.
Proof.
  intros Hid Hcnt Hconv Hin Hnan.
  unfold process_data, column. rewrite Hid. cbn [bindE].
  rewrite dict_get_set_other by reflexivity. rewrite Hcnt. cbn [bindE].
  rewrite Hconv. cbn [bindE].
  destruct (traverse_some_raises (get_elevation_and_color (PyFloat.nanmax cnts))
              cnts c (ValueError nan_msg) Hin) as (e & ->).
  - apply nan_row_raises. now left.
  - now exists e.
Qed.

Lemma nan_count_fails_witness : exists e, process_data sample_world gap_frame = inl e.
Proof.
  apply (nan_count_fails sample_world gap_frame [CStr "ABC123"; CStr "DEF456"]
           [CInt 10; CFloat nan] [PyFloat.of_Z 10; nan] nan
           eq_refl eq_refl eq_refl).
  - right. now left.
  - reflexivity.
Defined.

Lemma rows_derived (max_cnt : float) (cnts : list float) (results : list (float * list Z)) :
  traverse (get_elevation_and_color max_cnt) cnts = inr results ->
  map fst results = cnts
  /\ exists greens, map snd results = map (fun g => [255; g; 0]) greens.
Proof.
  revert results; induction cnts as [|c r IH]; intros results; simpl.
  - intros [= <-]. split; [reflexivity|now exists []].
  - unfold get_elevation_and_color at 1.
    destruct (PyFloat.to_int _) as [e|g]; cbn [bindE]; [discriminate|].
    destruct (traverse _ r) as [e|rs]; [discriminate|].
    intros [= <-]. destruct (IH rs eq_refl) as (E & greens & G).
    split; [simpl; now rewrite E|].
    exists (g :: greens). simpl. now rewrite G.
Qed.

(** X11.  What the processing of a table with at least one row returns:
    the column [cnt] holds the counts as floats, one per row that was read;
    the column [elevation] repeats them; every colour is [[255, g, 0]], one
    per row; and a column other than [cell_id], [cnt], [elevation] and
    [color] (the venue name of the tooltip, say) is as it was read. *)
Theorem process_data_shape (w : World) (data data' : DataFrame) (raw : list cell) :
  dict_get data "cnt" = Some raw ->
  raw <> [] ->
  process_data w data = inr data' ->
  exists (cnts : list float) (greens : list Z),
    traverse (astype_float w) raw = inr cnts
    /\ List.length cnts = List.length raw
    /\ dict_get data' "cnt" = Some (map CFloat cnts)
    /\ dict_get data' "elevation" = Some (map CFloat cnts)
    /\ dict_get data' "color" = Some (map (fun g => CList [255; g; 0]) greens)
    /\ List.length greens = List.length cnts
    /\ forall k, k <> "cell_id" -> k <> "cnt" -> k <> "elevation" -> k <> "color" ->
                 dict_get data' k = dict_get data k.
Proof.
  intros Hcnt Hne Hrun.
  destruct (process_data_rows w data data' raw Hcnt Hne Hrun)
    as (ids & cnts & results & _ & Hconv & Hres & ->).
  apply rows_derived in Hres as (Hfst & greens & Hsnd).
  exists cnts, greens.
  assert (Hel : map (fun r => CFloat (fst r)) results = map CFloat cnts)
    by now rewrite <- Hfst, map_map.
  assert (Hco : map (fun r => CList (snd r)) results
                = map (fun g => CList [255; g; 0]) greens).
  { rewrite <- (map_map snd CList), Hsnd, map_map. reflexivity. }
  split; [exact Hconv|]. split; [now apply traverse_length in Hconv|].
  repeat split.
  - rewrite !dict_get_set_other by reflexivity. apply dict_get_set_same.
  - rewrite dict_get_set_other by reflexivity. rewrite dict_get_set_same. now rewrite Hel.
  - rewrite dict_get_set_same. now rewrite Hco.
  - apply (f_equal (@List.length _)) in Hsnd. rewrite !length_map in Hsnd.
    apply (f_equal (@List.length _)) in Hfst. rewrite length_map in Hfst. lia.
  - intros k K1 K2 K3 K4.
    rewrite !dict_get_set_other; try reflexivity;
      apply String.eqb_neq; congruence.
Qed.

Lemma process_data_shape_witness :
  exists (cnts : list float) (greens : list Z),
    List.length cnts = 2%nat
    /\ dict_get processed_sample "elevation" = Some (map CFloat cnts)
    /\ dict_get processed_sample "color" = Some (map (fun g => CList [255; g; 0]) greens)
    /\ List.length greens = List.length cnts.
Proof.
  assert (H : process_data sample_world sample_frame = inr processed_sample)
    by (vm_compute; reflexivity).
  assert (Hne : [CInt 10; CInt 5] <> []) by discriminate.
  destruct (process_data_shape sample_world sample_frame processed_sample
              [CInt 10; CInt 5] eq_refl Hne H)
    as (cnts & greens & _ & H1 & _ & H3 & H4 & H5 & _).
  exists cnts, greens. repeat split; assumption.
Defined.

(** X12.  A table without the column [cell_id] makes the processing raise
    [KeyError] on that name; with [cell_id] but without [cnt], it raises
    [KeyError] on [cnt]. *)
Theorem missing_column_raises (w : World) (data : DataFrame) :
  (dict_get data "cell_id" = None ->
     process_data w data = inl (KeyError "cell_id"))
  /\ (dict_get data "cell_id" <> None -> dict_get data "cnt" = None ->
        process_data w data = inl (KeyError "cnt")).
Proof.
  unfold process_data, column. split.
  - now intros ->.
  - intros H1 H2. destruct (dict_get data "cell_id") as [ids|]; [|contradiction].
    cbn [bindE]. rewrite dict_get_set_other by reflexivity. now rewrite H2.
Qed.

(* ================================================================== *)
(** * Further properties of [main] *)
(* ================================================================== *)

(** X13.  [name_to_code] gives a name the code of the last row of the table
    that bears it; when names do not repeat, that is the code of its row. *)
Theorem name_to_code_last (pre post : list VenueRecord) (v : VenueRecord) :
  ~ In (Nom_Site v) (map Nom_Site post) ->
  lookup_code (name_to_code_of (pre ++ v :: post)) (Nom_Site v) = inr (Code_Site v).
Proof.
  intros Hnot. unfold lookup_code, name_to_code_of.
  rewrite fold_left_app. cbn [fold_left].
  rewrite name_to_code_fold_other by exact Hnot.
  now rewrite dict_get_set_same.
Qed.

Lemma name_to_code_last_witness :
  lookup_code
    (name_to_code_of
       [ {| Nom_Site := "Stade A"; Code_Site := "OLD";
            latitude := 48.5%float; longitude := 2.25%float |};
         stade_a ])
    "Stade A"
  = inr "STA".
Proof.
  apply (name_to_code_last
           [ {| Nom_Site := "Stade A"; Code_Site := "OLD";
                latitude := 48.5%float; longitude := 2.25%float |} ]
           [] stade_a).
  simpl. tauto.
Defined.

(** X14.  A selected name that the table does not have stops the run before
    the [try] statement: [main] raises [KeyError] on the first such name
    after the title and the sidebar header, and nothing is requested,
    whether the button was pressed or not. *)
Theorem unknown_name_raises (w : World) (ui : Inputs) (stadium_data : list VenueRecord)
  (known rest : list string) (name : string) (log : list event) :
  venue_table w = inr stadium_data ->
  selected_stadiums ui = (known ++ name :: rest)%list ->
  incl known (map Nom_Site stadium_data) ->
  ~ In name (map Nom_Site stadium_data) ->
  main w ui log
  = (inl (KeyError name),
     (log ++ [StTitle title_msg; StSidebarHeader "Parameters"])%list).
Proof.
  intros Htable Hsel Hknown Hnot.
  unfold main, load_stadium_data, bind, emit, lift. rewrite Htable, Hsel.
  destruct (lookup_codes_known _ _ Hknown) as (codes & Hcodes).
  rewrite (traverse_app_raises _ known rest name codes (KeyError name) Hcodes
             (name_to_code_unknown _ _ Hnot)).
  now rewrite <- app_assoc.
Qed.

Lemma unknown_name_raises_witness :
  main sample_world (inputs_of ["Stade A"; "Stade B"]) []
  = (inl (KeyError "Stade B"), [StTitle title_msg; StSidebarHeader "Parameters"]).
Proof.
  apply (unknown_name_raises sample_world (inputs_of ["Stade A"; "Stade B"])
           [stade_a] ["Stade A"] [] "Stade B" [] eq_refl eq_refl).
  - intros x [<-|[]]. now left.
  - simpl. intros [H|[]]. discriminate H.
Defined.

(** X15.  Without a press of the button nothing is requested and nothing is
    drawn: the run shows the title, the sidebar header and, when a venue is
    selected, the subheader, and ends. *)
Theorem idle_run (w : World) (ui : Inputs) (stadium_data : list VenueRecord)
  (log : list event) :
  venue_table w = inr stadium_data ->
  incl (selected_stadiums ui) (map Nom_Site stadium_data) ->
  button ui = false ->
  main w ui log
  = (inr tt,
     (log ++ [StTitle title_msg; StSidebarHeader "Parameters"]
          ++ match selected_stadiums ui with
             | [] => []
             | _ => [StSubheader "Selected Stadiums"]
             end)%list).
Proof.
  intros Htable Hincl Hbutton.
  unfold main, load_stadium_data, bind, emit, lift, ret. rewrite Htable, Hbutton.
  destruct (lookup_codes_known _ _ Hincl) as (codes & ->).
  destruct (selected_stadiums ui); now rewrite <- !app_assoc.
Qed.

Lemma idle_run_witness :
  main sample_world
    {| selected_stadiums := ["Stade A"]; travel_time := 5; travel_mode := "auto";
       button := false |} []
  = (inr tt, [StTitle title_msg; StSidebarHeader "Parameters";
              StSubheader "Selected Stadiums"]).
Proof.
  apply (idle_run sample_world
           {| selected_stadiums := ["Stade A"]; travel_time := 5;
              travel_mode := "auto"; button := false |} [stade_a] [] eq_refl).
  - intros x [<-|[]]. now left.
  - reflexivity.
Defined.

Lemma requests_in_app (a b : list event) :
  requests_in (a ++ b) = (requests_in a + requests_in b)%nat.
Proof. induction a as [|[] a IH]; simpl; lia. Qed.

Lemma charts_in_app (a b : list event) :
  charts_in (a ++ b) = (charts_in a + charts_in b)%nat.
Proof. induction a as [|[] a IH]; simpl; lia. Qed.

Lemma errors_in_app (a b : list event) :
  errors_in (a ++ b) = (errors_in a + errors_in b)%nat.
Proof. induction a as [|[] a IH]; simpl; lia. Qed.

(** What one call of [fetch_data] adds to the log. *)
Lemma fetch_data_added (w : World) (codes : list string) (tt : Z) (tm : string)
  (res : Z) (log : list event) :
  exists r added,
    fetch_data w codes tt tm res log = (r, (log ++ added)%list)
    /\ requests_in added = 1%nat /\ charts_in added = 0%nat
    /\ match r with
       | inr _ => errors_in added = 0%nat
       | inl _ => (errors_in added <= 1)%nat
       end.
Proof.
  unfold fetch_data, bind, emit, lift, try_except, raise.
  destruct (requests_get w _ _) as [e|resp];
    [eexists _, [_]; repeat split; simpl; lia|].
  destruct (raise_for_status resp) as [e|];
    [eexists _, [_]; repeat split; simpl; lia|].
  destruct (String.eqb _ ""); [eexists _, [_]; repeat split; simpl; lia|].
  destruct (read_csv w _) as [e|df]; [|eexists _, [_]; repeat split; simpl; lia].
  destruct e; try (eexists _, [_]; repeat split; simpl; lia).
  eexists _, [_; _]. rewrite <- app_assoc. repeat split; simpl; lia.
Qed.

(** What the body of the [try] block adds to the log. *)
Lemma cycle_body_added (w : World) (stadium_data : list VenueRecord) (ui : Inputs)
  (codes : list string) (log : list event) :
  exists r added,
    cycle_body w stadium_data ui codes log = (r, (log ++ added)%list)
    /\ requests_in added = 1%nat
    /\ match r with
       | inr _ => charts_in added = 1%nat /\ errors_in added = 0%nat
       | inl _ => charts_in added = 0%nat /\ (errors_in added <= 1)%nat
       end.
Proof.
  unfold cycle_body, bind, emit.
  destruct (fetch_data_added w codes (travel_time ui) (travel_mode ui) 11
              (log ++ [StWrite (fetching_msg codes)])%list)
    as (r & added & -> & Hreq & Hch & Herr).
  rewrite <- app_assoc.
  destruct r as [e|data].
  - eexists _, _. split; [reflexivity|].
    rewrite requests_in_app, charts_in_app, errors_in_app. simpl. lia.
  - unfold lift.
    destruct (build_layers _ _ _ _) as [e|[[layer scatter_layer] view_state]].
    + eexists _, _. split; [reflexivity|].
      rewrite requests_in_app, charts_in_app, errors_in_app. simpl. lia.
    + destruct (pydeck_chart w _) as [e|]; unfold raise.
      * eexists _, _. split; [reflexivity|].
        rewrite requests_in_app, charts_in_app, errors_in_app. simpl. lia.
      * eexists _, _. rewrite <- app_assoc. split; [reflexivity|].
        rewrite !requests_in_app, !charts_in_app, !errors_in_app. simpl. lia.
Qed.

(** What the [try] statement adds to the log. *)
Lemma cycle_added (w : World) (stadium_data : list VenueRecord) (ui : Inputs)
  (codes : list string) (log : list event) :
  exists added,
    cycle w stadium_data ui codes log = (inr tt, (log ++ added)%list)
    /\ requests_in added = 1%nat
    /\ ((charts_in added = 1 /\ errors_in added = 0)
        \/ (charts_in added = 0 /\ 1 <= errors_in added <= 2))%nat.
Proof.
  destruct (cycle_body_added w stadium_data ui codes log)
    as (r & added & Hb & Hreq & Hr).
  unfold cycle, try_except. rewrite Hb. destruct r as [e|[]].
  - unfold on_exception, bind, emit. rewrite <- !app_assoc.
    eexists. split; [reflexivity|].
    rewrite requests_in_app, charts_in_app, errors_in_app. simpl. lia.
  - exists added. split; [reflexivity|]. lia.
Qed.

(** What a run with the button pressed adds to the log. *)
Lemma triggered_run_added (w : World) (ui : Inputs) (stadium_data : list VenueRecord)
  (log : list event) :
  venue_table w = inr stadium_data ->
  incl (selected_stadiums ui) (map Nom_Site stadium_data) ->
  button ui = true ->
  exists added,
    main w ui log = (inr tt, (log ++ added)%list)
    /\ requests_in added = 1%nat
    /\ ((charts_in added = 1 /\ errors_in added = 0)
        \/ (charts_in added = 0 /\ 1 <= errors_in added <= 2))%nat.
Proof.
  intros Htable Hincl Hbutton.
  unfold main, load_stadium_data, bind, emit, lift, ret. rewrite Htable, Hbutton.
  destruct (lookup_codes_known _ _ Hincl) as (codes & ->).
  destruct (selected_stadiums ui) as [|n sel];
    match goal with
    | |- context [cycle ?w ?sd ?u ?c ?l] =>
        destruct (cycle_added w sd u c l) as (added & -> & Hreq & Hce)
    end;
    rewrite <- !app_assoc; eexists; (split; [reflexivity|]);
    rewrite requests_in_app, charts_in_app, errors_in_app; simpl;
    rewrite ?requests_in_app, ?charts_in_app, ?errors_in_app; simpl; lia.
Qed.

(** X16.  A press of the button sends exactly one request, whatever the
    service answers and however the run goes on: there is no retry and no
    second query. *)
Theorem one_request_per_trigger (w : World) (ui : Inputs)
  (stadium_data : list VenueRecord) (log : list event) :
  venue_table w = inr stadium_data ->
  incl (selected_stadiums ui) (map Nom_Site stadium_data) ->
  button ui = true ->
  exists added,
    snd (main w ui log) = (log ++ added)%list /\ requests_in added = 1%nat.
Proof.
  intros Htable Hincl Hbutton.
  destruct (triggered_run_added w ui stadium_data log Htable Hincl Hbutton)
    as (added & -> & Hreq & _).
  now exists added.
Qed.

Lemma one_request_per_trigger_witness :
  exists added,
    snd (main sample_world (inputs_of ["Stade A"]) []) = added
    /\ requests_in added = 1%nat.
Proof.
  apply (one_request_per_trigger sample_world (inputs_of ["Stade A"]) [stade_a] []
           eq_refl).
  - intros x [<-|[]]. now left.
  - reflexivity.
Defined.

(** X17.  A press of the button ends with the chart or with an error, never
    with both and never with neither: either one chart is drawn and no error
    message is shown, or no chart is drawn and one or two error messages are
    shown. *)
Theorem chart_or_error (w : World) (ui : Inputs) (stadium_data : list VenueRecord)
  (log : list event) :
  venue_table w = inr stadium_data ->
  incl (selected_stadiums ui) (map Nom_Site stadium_data) ->
  button ui = true ->
  exists added,
    main w ui log = (inr tt, (log ++ added)%list)
    /\ ((charts_in added = 1 /\ errors_in added = 0)
        \/ (charts_in added = 0 /\ 1 <= errors_in added <= 2))%nat.
Proof.
  intros Htable Hincl Hbutton.
  destruct (triggered_run_added w ui stadium_data log Htable Hincl Hbutton)
    as (added & -> & _ & Hce).
  now exists added.
Qed.

Lemma chart_or_error_witness :
  exists added,
    main (world_of (inr (ok_response ragged_body))) (inputs_of ["Stade A"]) []
    = (inr tt, added)
    /\ ((charts_in added = 1 /\ errors_in added = 0)
        \/ (charts_in added = 0 /\ 1 <= errors_in added <= 2))%nat.
Proof.
  apply (chart_or_error (world_of (inr (ok_response ragged_body)))
           (inputs_of ["Stade A"]) [stade_a] [] eq_refl).
  - intros x [<-|[]]. now left.
  - reflexivity.
Defined.

Lemma isin_In (selected : list string) (name : string) :
  isin selected name = true <-> In name selected.
Proof.
  unfold isin. rewrite existsb_exists. split.
  - intros (x & Hx & E). apply String.eqb_eq in E. now subst.
  - intros H. exists name. split; [exact H|apply String.eqb_refl].
Qed.

Lemma names_of_filter (p : string -> bool) (stadium_data : list VenueRecord) :
  map Nom_Site (filter (fun v => p (Nom_Site v)) stadium_data)
  = filter p (map Nom_Site stadium_data).
Proof.
  induction stadium_data as [|v r IH]; simpl; [reflexivity|].
  destruct (p (Nom_Site v)); simpl; now rewrite IH.
Qed.

(** X18.  One point per selected venue: when the names of the table do not
    repeat and the selection is made of distinct names of the table, the
    scatter layer holds as many points as venues were selected, and they are
    the rows of the table whose name is selected. *)
Theorem one_point_per_venue (w : World) (stadium_data : list VenueRecord)
  (selected : list string) (data : DataFrame) (layer : HexLayer)
  (scatter_layer : ScatterLayer) (view_state : ViewState) :
  NoDup (map Nom_Site stadium_data) ->
  NoDup selected ->
  incl selected (map Nom_Site stadium_data) ->
  build_layers w stadium_data selected data = inr (layer, scatter_layer, view_state) ->
  List.length (scatter_data scatter_layer) = List.length selected
  /\ forall v, In v (scatter_data scatter_layer)
               <-> In v stadium_data /\ In (Nom_Site v) selected.
Proof.
  intros Hnames Hsel Hincl. unfold build_layers.
  destruct (process_data w data) as [e|d]; cbn [bindE]; [discriminate|].
  intros [= _ <- _]. cbn [scatter_data].
  set (points := filter (fun v => isin selected (Nom_Site v)) stadium_data).
  assert (Hin : forall v, In v points <-> In v stadium_data /\ In (Nom_Site v) selected).
  { intros v. unfold points. rewrite filter_In, isin_In. reflexivity. }
  split; [|exact Hin].
  rewrite <- (length_map Nom_Site points).
  assert (Hnd : NoDup (map Nom_Site points)).
  { unfold points. rewrite names_of_filter. now apply NoDup_filter. }
  apply Nat.le_antisymm; apply NoDup_incl_length; try assumption.
  - intros n Hn. apply in_map_iff in Hn as (v & <- & Hv). now apply Hin in Hv.
  - intros n Hn. destruct (proj1 (in_map_iff _ _ _) (Hincl n Hn)) as (v & <- & Hv).
    apply in_map. apply Hin. now split.
Qed.

Lemma one_point_per_venue_witness :
  List.length [stade_a] = List.length ["Stade A"].
Proof.
  assert (H : build_layers sample_world [stade_a] ["Stade A"] sample_frame
              = inr ({| hex_data := processed_sample; hex_pickable := true;
                        hex_stroked := true; hex_filled := true;
                        hex_extruded := true; get_hexagon := "cell_id";
                        get_fill_color := "color"; get_elevation := "elevation";
                        elevation_scale := 20 |},
                     {| scatter_data := [stade_a];
                        get_position := ["longitude"; "latitude"];
                        get_color := [200; 30; 0; 160]; get_radius := 200;
                        scatter_pickable := true |},
                     {| vs_latitude := 48.5%float; vs_longitude := 2.25%float;
                        zoom := 11; pitch := 20 |}))
    by (vm_compute; reflexivity).
  refine (proj1 (one_point_per_venue sample_world [stade_a] ["Stade A"] sample_frame
                   _ _ _ _ _ _ H)).
  - repeat constructor. simpl. tauto.
  - repeat constructor. simpl. tauto.
  - intros x [<-|[]]. now left.
Defined.

(** X19.  The layers depend on which venues are selected, not on the order
    of the selection nor on repetitions in it: two selections with the same
    names give the same layers and the same view. *)
Theorem selection_order_irrelevant (w : World) (stadium_data : list VenueRecord)
  (selected selected' : list string) (data : DataFrame) :
  (forall name, In name selected <-> In name selected') ->
  build_layers w stadium_data selected data
  = build_layers w stadium_data selected' data.
Proof.
  intros Hsame. unfold build_layers.
  assert (E : filter (fun v => isin selected (Nom_Site v)) stadium_data
              = filter (fun v => isin selected' (Nom_Site v)) stadium_data).
  { apply filter_ext. intros v.
    destruct (isin selected (Nom_Site v)) eqn:E1, (isin selected' (Nom_Site v)) eqn:E2;
      try reflexivity.
    - apply isin_In, Hsame, isin_In in E1. congruence.
    - apply isin_In, Hsame, isin_In in E2. congruence. }
  now rewrite E.
Qed.

Lemma selection_order_irrelevant_witness :
  build_layers sample_world [stade_a] ["Stade A"; "Stade B"] sample_frame
  = build_layers sample_world [stade_a] ["Stade B"; "Stade A"; "Stade A"] sample_frame.
Proof.
  apply (selection_order_irrelevant sample_world [stade_a]).
  intros name. simpl. tauto.
Defined.

(* ================================================================== *)
(** * Colours are in range *)
(* ================================================================== *)


Lemma digits2_pos_bounds (m : positive) :
  2 ^ (Zpos (digits2_pos m) - 1) <= Zpos m < 2 ^ Zpos (digits2_pos m).
Proof.
  induction m as [m IH|m IH|]; cbn [digits2_pos].
  - rewrite Pos2Z.inj_succ.
    replace (Z.succ (Zpos (digits2_pos m)) - 1) with (Z.succ (Zpos (digits2_pos m) - 1)) by lia.
    rewrite !Z.pow_succ_r by lia.
    remember (2 ^ (Zpos (digits2_pos m) - 1)) as a. remember (2 ^ Zpos (digits2_pos m)) as b.
    lia.
  - rewrite Pos2Z.inj_succ.
    replace (Z.succ (Zpos (digits2_pos m)) - 1) with (Z.succ (Zpos (digits2_pos m) - 1)) by lia.
    rewrite !Z.pow_succ_r by lia.
    remember (2 ^ (Zpos (digits2_pos m) - 1)) as a. remember (2 ^ Zpos (digits2_pos m)) as b.
    lia.
  - simpl. lia.
Qed.

Lemma shr_1_under (K : Z) (mrs : shr_record) :
  under (2 * K) mrs -> under K (shr_1 mrs).
Proof.
  destruct mrs as [[|[p|p|]|p] r s]; unfold under; destruct r, s;
    cbn [shr_1 shr_m shr_r shr_s orb];
    intros [H1 H2]; (split; [lia|]); intros Hf;
    try discriminate Hf; try specialize (H2 eq_refl); lia.
Qed.

Lemma pow2_xI (p : positive) : 2 ^ Zpos p~1 = 2 * (2 ^ Zpos p * 2 ^ Zpos p).
Proof.
  replace (Zpos p~1) with (Zpos p + Zpos p + 1) by lia.
  rewrite !Z.pow_add_r, Z.pow_1_r by lia. ring.
Qed.

Lemma pow2_xO (p : positive) : 2 ^ Zpos p~0 = 2 ^ Zpos p * 2 ^ Zpos p.
Proof.
  replace (Zpos p~0) with (Zpos p + Zpos p) by lia.
  now rewrite Z.pow_add_r by lia.
Qed.

Lemma iter_shr_under (p : positive) :
  forall (K : Z) (mrs : shr_record),
    under (K * 2 ^ Zpos p) mrs -> under K (iter_pos shr_1 p mrs).
Proof.
  induction p as [p IH|p IH|]; intros K mrs H; cbn [iter_pos].
  - apply IH, IH, shr_1_under. rewrite pow2_xI in H.
    replace (2 * (K * 2 ^ Zpos p * 2 ^ Zpos p))
      with (K * (2 * (2 ^ Zpos p * 2 ^ Zpos p))) by ring.
    exact H.
  - apply IH, IH. rewrite pow2_xO in H.
    replace (K * 2 ^ Zpos p * 2 ^ Zpos p) with (K * (2 ^ Zpos p * 2 ^ Zpos p)) by ring.
    exact H.
  - apply shr_1_under. rewrite Z.pow_1_r in H.
    replace (2 * K) with (K * 2) by ring. exact H.
Qed.

Lemma digits_le (mx k : Z) : 0 <= k -> 0 <= mx < 2 ^ k -> Zdigits2 mx <= k.
Proof.
  intros Hk [H0 H1]. destruct mx as [|m|m]; simpl; try lia.
  pose proof (digits2_pos_bounds m) as [Hlo _].
  assert (2 ^ (Zpos (digits2_pos m) - 1) < 2 ^ k) by lia.
  apply Z.pow_lt_mono_r_iff in H; lia.
Qed.

Lemma shr_fexp_under (B mx ex : Z) (lx : location) :
  0 < B < 2 ^ 53 -> ex <= 0 ->
  0 <= mx <= B * 2 ^ (- ex) ->
  (lx <> loc_Exact -> mx < B * 2 ^ (- ex)) ->
  snd (shr_fexp prec emax mx ex lx) <= 0
  /\ under (B * 2 ^ (- snd (shr_fexp prec emax mx ex lx)))
       (fst (shr_fexp prec emax mx ex lx)).
Proof.
  intros HB Hex Hmx Hlx. unfold shr_fexp, shr.
  assert (Hrec : under (B * 2 ^ (- ex)) (shr_record_of_loc mx lx)).
  { unfold under. destruct lx as [|[]]; simpl; split; try lia;
      intros _; apply Hlx; discriminate. }
  destruct (fexp prec emax (Zdigits2 mx + ex) - ex) as [|p|p] eqn:En; cbn [fst snd];
    try (split; [exact Hex|exact Hrec]).
  assert (Hd : Zdigits2 mx <= 53 - ex).
  { apply digits_le; [lia|]. split; [lia|].
    apply Z.le_lt_trans with (B * 2 ^ (- ex)); [lia|].
    replace (53 - ex) with (53 + - ex) by lia. rewrite Z.pow_add_r by lia.
    apply Z.mul_lt_mono_pos_r; [apply Z.pow_pos_nonneg; lia|lia]. }
  assert (He : ex + Zpos p <= 0).
  { unfold fexp, SpecFloat.emin, prec, emax in En. lia. }
  split; [exact He|].
  apply iter_shr_under.
  replace (B * 2 ^ (- (ex + Zpos p)) * 2 ^ Zpos p) with (B * 2 ^ (- ex)); [exact Hrec|].
  rewrite <- Z.mul_assoc, <- Z.pow_add_r by lia. f_equal. f_equal. lia.
Qed.

Lemma round_under (K : Z) (mrs : shr_record) :
  under K mrs -> 0 <= round_nearest_even (shr_m mrs) (loc_of_shr_record mrs) <= K.
Proof.
  destruct mrs as [m [|] [|]]; unfold under; simpl; intros [H1 H2];
    try specialize (H2 eq_refl); try destruct (Z.even m); lia.
Qed.

Lemma binary_round_aux_below (B mx ex : Z) (lx : location) :
  0 < B < 2 ^ 53 -> ex <= 0 ->
  0 <= mx <= B * 2 ^ (- ex) ->
  (lx <> loc_Exact -> mx < B * 2 ^ (- ex)) ->
  below B (binary_round_aux prec emax false mx ex lx).
Proof.
  intros HB Hex Hmx Hlx. unfold binary_round_aux.
  pose proof (shr_fexp_under B mx ex lx HB Hex Hmx Hlx) as [He' Hu'].
  destruct (shr_fexp prec emax mx ex lx) as [mrs' e']. cbn [fst snd] in *.
  pose proof (round_under _ _ Hu') as Hm1.
  set (m1 := round_nearest_even (shr_m mrs') (loc_of_shr_record mrs')) in *.
  pose proof (shr_fexp_under B m1 e' loc_Exact HB He' Hm1) as [He'' Hu''].
  { intros C. congruence. }
  destruct (shr_fexp prec emax m1 e' loc_Exact) as [mrs'' e'']. cbn [fst snd] in *.
  destruct Hu'' as [Hrange _].
  destruct (shr_m mrs'') as [|m|m]; [exact I| |exfalso; lia].
  assert (Hle : (e'' <=? emax - prec) = true)
    by (apply Z.leb_le; unfold emax, prec; lia).
  rewrite Hle. unfold below. split; [exact He''|lia].
Qed.

Lemma valid_finite (s : bool) (m : positive) (e : Z) :
  valid_binary (S754_finite s m e) = true ->
  -1074 <= e <= 971
  /\ Zpos (digits2_pos m) <= 53
  /\ (-1074 < e -> Zpos (digits2_pos m) = 53).
Proof.
  unfold SpecFloat.valid_binary, bounded, canonical_mantissa, fexp, SpecFloat.emin,
    emax, prec.
  intros H. apply andb_true_iff in H as [H1 H2].
  apply Z.eqb_eq in H1. apply Z.leb_le in H2. lia.
Qed.

Lemma ival_pos (m : positive) (e : Z) : -1074 <= e -> 0 < ival (S754_finite false m e).
Proof.
  intros He. unfold ival. apply Z.mul_pos_pos; [lia|]. apply Z.pow_pos_nonneg; lia.
Qed.

Lemma ival_lt_of_exp (m1 m2 : positive) (e1 e2 : Z) :
  valid_binary (S754_finite false m1 e1) = true ->
  valid_binary (S754_finite false m2 e2) = true ->
  e1 < e2 ->
  ival (S754_finite false m1 e1) < ival (S754_finite false m2 e2).
Proof.
  intros V1 V2 Hlt.
  apply valid_finite in V1 as (R1 & D1 & _). apply valid_finite in V2 as (R2 & _ & N2).
  specialize (N2 ltac:(lia)).
  pose proof (digits2_pos_bounds m1) as [_ U1].
  pose proof (digits2_pos_bounds m2) as [L2 _].
  rewrite N2 in L2. change (53 - 1) with 52 in L2.
  assert (U1' : Zpos m1 < 2 ^ 53).
  { eapply Z.lt_le_trans; [exact U1|]. apply Z.pow_le_mono_r; lia. }
  unfold ival.
  apply Z.lt_le_trans with (2 ^ 53 * 2 ^ (e1 + 1074)).
  - apply Z.mul_lt_mono_pos_r; [apply Z.pow_pos_nonneg; lia|exact U1'].
  - apply Z.le_trans with (2 ^ 52 * 2 ^ (e2 + 1074)).
    + rewrite <- !Z.pow_add_r by lia. apply Z.pow_le_mono_r; lia.
    + apply Z.mul_le_mono_nonneg_r; [apply Z.pow_nonneg; lia|exact L2].
Qed.

Lemma SFcompare_ival (p q : spec_float) :
  fin_nonneg p -> fin_nonneg q -> SFcompare p q = Some (ival p ?= ival q).
Proof.
  intros [Vp Hp] [Vq Hq].
  destruct p as [sp| | |[|] mp ep], q as [sq| | |[|] mq eq]; try contradiction;
    cbn [SFcompare].
  - reflexivity.
  - pose proof (ival_pos mq eq (proj1 (proj1 (valid_finite _ _ _ Vq)))) as H.
    cbn [ival] in *. symmetry. f_equal. now apply Z.compare_lt_iff.
  - pose proof (ival_pos mp ep (proj1 (proj1 (valid_finite _ _ _ Vp)))) as H.
    cbn [ival] in *. symmetry. f_equal. now apply Z.compare_gt_iff.
  - f_equal. destruct (Z.compare_spec ep eq) as [->|Hlt|Hgt].
    + cbn [ival].
      rewrite <- Zmult_compare_compat_r
        by (apply Z.lt_gt, Z.pow_pos_nonneg; [lia|];
            pose proof (valid_finite _ _ _ Vq); lia).
      reflexivity.
    + symmetry. apply Z.compare_lt_iff. now apply ival_lt_of_exp.
    + symmetry. apply Z.compare_gt_iff. now apply ival_lt_of_exp.
Qed.

Lemma SFltb_ival (p q : spec_float) :
  fin_nonneg p -> fin_nonneg q -> SFltb p q = (ival p <? ival q).
Proof.
  intros Hp Hq. unfold SFltb. rewrite (SFcompare_ival p q Hp Hq).
  unfold Z.ltb. now destruct (ival p ?= ival q).
Qed.

Lemma SFleb_ival (p q : spec_float) :
  fin_nonneg p -> fin_nonneg q -> SFleb p q = (ival p <=? ival q).
Proof.
  intros Hp Hq. unfold SFleb. rewrite (SFcompare_ival p q Hp Hq).
  unfold Z.leb. now destruct (ival p ?= ival q).
Qed.

Lemma one_lt_2_53 : 0 < 1 < 2 ^ 53.
Proof. split; reflexivity. Qed.

Lemma new_location_exact (nb r : Z) :
  new_location nb r <> loc_Exact -> r <> 0.
Proof.
  intros H ->. apply H. unfold new_location, new_location_even, new_location_odd.
  now destruct (Z.even nb).
Qed.

Lemma SFdiv_below (mc mm : positive) (ec em : Z) :
  valid_binary (S754_finite false mc ec) = true ->
  valid_binary (S754_finite false mm em) = true ->
  ival (S754_finite false mc ec) <= ival (S754_finite false mm em) ->
  below 1 (SFdiv prec emax (S754_finite false mc ec) (S754_finite false mm em)).
Proof.
  intros Vc Vm Hle. cbn [ival] in Hle.
  apply valid_finite in Vc as (Rc & _ & _). apply valid_finite in Vm as (Rm & _ & _).
  pose proof (digits2_pos_bounds mc) as [Lc _].
  pose proof (digits2_pos_bounds mm) as [_ Um].
  set (d1 := Zpos (digits2_pos mc)) in *. set (d2 := Zpos (digits2_pos mm)) in *.
  assert (Hd1 : 1 <= d1) by (unfold d1; lia).
  assert (Hd2 : 1 <= d2) by (unfold d2; lia).
  assert (F1 : d1 + ec <= d2 + em).
  { assert (H : 2 ^ (d1 - 1 + (ec + 1074)) < 2 ^ (d2 + (em + 1074))).
    { rewrite (Z.pow_add_r 2 (d1 - 1) (ec + 1074)),
        (Z.pow_add_r 2 d2 (em + 1074)) by lia.
      apply Z.le_lt_trans with (Zpos mc * 2 ^ (ec + 1074)).
      - apply Z.mul_le_mono_nonneg_r; [apply Z.pow_nonneg; lia|exact Lc].
      - apply Z.le_lt_trans with (Zpos mm * 2 ^ (em + 1074)); [exact Hle|].
        apply Z.mul_lt_mono_pos_r; [apply Z.pow_pos_nonneg; lia|exact Um]. }
    apply Z.pow_lt_mono_r_iff in H; lia. }
  unfold SFdiv, SFdiv_core_binary. cbn [xorb Zdigits2]. fold d1 d2.
  set (e' := Z.min (fexp prec emax (d1 + ec - (d2 + em))) (ec - em)).
  assert (F2 : e' <= -53).
  { unfold e', fexp, SpecFloat.emin, prec, emax. lia. }
  set (s := ec - em - e').
  assert (Hs : 0 <= s) by (unfold s, e'; lia).
  set (m' := match s with
             | 0 => Zpos mc
             | Zpos _ => Z.shiftl (Zpos mc) s
             | Zneg _ => 0
             end).
  assert (F3 : m' = Zpos mc * 2 ^ s).
  { unfold m'. destruct s as [|p|p] eqn:Es.
    - now rewrite Z.pow_0_r, Z.mul_1_r.
    - now rewrite Z.shiftl_mul_pow2 by lia.
    - lia. }
  assert (F4 : m' <= 2 ^ (- e') * Zpos mm).
  { apply (Z.mul_le_mono_pos_r _ _ (2 ^ (em + 1074)));
      [apply Z.pow_pos_nonneg; lia|].
    rewrite F3.
    replace (Zpos mc * 2 ^ s * 2 ^ (em + 1074))
      with (Zpos mc * 2 ^ (ec + 1074) * 2 ^ (- e')).
    - replace (2 ^ (- e') * Zpos mm * 2 ^ (em + 1074))
        with (Zpos mm * 2 ^ (em + 1074) * 2 ^ (- e')) by ring.
      apply Z.mul_le_mono_nonneg_r; [apply Z.pow_nonneg; lia|exact Hle].
    - rewrite <- !Z.mul_assoc, <- !Z.pow_add_r by lia. do 2 f_equal. unfold s. lia. }
  pose proof (Z_div_mod m' (Zpos mm) ltac:(lia)) as Hdiv.
  destruct (Z.div_eucl m' (Zpos mm)) as [q r]. destruct Hdiv as [Hq Hr].
  assert (Hm' : 0 <= m').
  { rewrite F3. apply Z.mul_nonneg_nonneg; [lia|apply Z.pow_nonneg; lia]. }
  apply binary_round_aux_below.
  - exact one_lt_2_53.
  - lia.
  - rewrite Z.mul_1_l. split.
    + assert (- 1 < q); [|lia].
      apply (Z.mul_lt_mono_pos_l (Zpos mm)); lia.
    + apply (Z.mul_le_mono_pos_l _ _ (Zpos mm)); [lia|].
      rewrite (Z.mul_comm (Zpos mm) (2 ^ (- e'))). lia.
  - intros Hl. apply new_location_exact in Hl. rewrite Z.mul_1_l.
    apply (Z.mul_lt_mono_pos_l (Zpos mm)); [lia|].
    rewrite (Z.mul_comm (Zpos mm) (2 ^ (- e'))). lia.
Qed.

Lemma iter_xO_pow (mx d : positive) : Zpos (Pos.iter xO mx d) = Zpos mx * 2 ^ Zpos d.
Proof.
  induction d as [|d IH] using Pos.peano_ind.
  - simpl. lia.
  - rewrite Pos.iter_succ, Pos2Z.inj_succ, Z.pow_succ_r by lia.
    rewrite Pos2Z.inj_xO, IH. ring.
Qed.

Lemma shl_align_spec (mx : positive) (ex ex' : Z) :
  snd (shl_align mx ex ex') <= ex
  /\ (ex' <= ex -> snd (shl_align mx ex ex') = ex')
  /\ Zpos (fst (shl_align mx ex ex')) = Zpos mx * 2 ^ (ex - snd (shl_align mx ex ex')).
Proof.
  unfold shl_align. destruct (ex' - ex) as [|d|d] eqn:E; cbn [fst snd].
  - rewrite Z.sub_diag, Z.pow_0_r. lia.
  - rewrite Z.sub_diag, Z.pow_0_r. lia.
  - rewrite iter_xO_pow. replace (ex - ex') with (Zpos d) by lia. lia.
Qed.

Lemma binary_round_below (B : Z) (d : positive) (ez : Z) :
  0 < B < 2 ^ 53 -> ez <= 0 -> Zpos d <= B * 2 ^ (- ez) ->
  below B (binary_round prec emax false d ez).
Proof.
  intros HB Hez Hd. unfold binary_round.
  pose proof (shl_align_spec d ez (fexp prec emax (Zpos (digits2_pos d) + ez)))
    as (Hle & _ & Hm).
  destruct (shl_align d ez _) as [mz ez']. cbn [fst snd] in *.
  apply binary_round_aux_below; try assumption; try lia.
  - split; [lia|]. rewrite Hm.
    replace (- ez') with (- ez + (ez - ez')) by lia.
    rewrite Z.pow_add_r, Z.mul_assoc by lia.
    apply Z.mul_le_mono_nonneg_r; [apply Z.pow_nonneg; lia|exact Hd].
  - intros C. congruence.
Qed.

Lemma SFsub_one_below (q : spec_float) :
  below 1 q ->
  below 1 (SFsub prec emax (S754_finite false 4503599627370496 (-52)) q).
Proof.
  destruct q as [s|s| |[|] mq eq]; cbn [below]; try contradiction.
  - intros _. cbn [SFsub below]. split; [lia|reflexivity].
  - intros [Heq Hmq]. cbn [SFsub cond_Zopp].
    set (ez := Z.min (-52) eq).
    pose proof (shl_align_spec 4503599627370496 (-52) ez) as (_ & E1 & M1).
    pose proof (shl_align_spec mq eq ez) as (_ & E2 & M2).
    rewrite E1 in M1 by (unfold ez; lia). rewrite E2 in M2 by (unfold ez; lia).
    rewrite M1, M2.
    assert (H1 : 4503599627370496 * 2 ^ (-52 - ez) = 2 ^ (- ez)).
    { change 4503599627370496 with (2 ^ 52).
      rewrite <- Z.pow_add_r by (unfold ez; lia). f_equal. lia. }
    assert (H2 : Zpos mq * 2 ^ (eq - ez) <= 2 ^ (- ez)).
    { replace (- ez) with (- eq + (eq - ez)) by lia.
      rewrite Z.pow_add_r by (unfold ez; lia).
      apply Z.mul_le_mono_nonneg_r; [apply Z.pow_nonneg; unfold ez; lia|lia]. }
    assert (H3 : 0 < Zpos mq * 2 ^ (eq - ez)).
    { apply Z.mul_pos_pos; [lia|]. apply Z.pow_pos_nonneg; unfold ez; lia. }
    rewrite H1.
    destruct (2 ^ (- ez) - Zpos mq * 2 ^ (eq - ez)) as [|d|d] eqn:ED;
      cbn [binary_normalize].
    + exact I.
    + apply binary_round_below; [exact one_lt_2_53|unfold ez; lia|lia].
    + lia.
Qed.

Lemma SFmul_255_below (t : spec_float) :
  below 1 t ->
  below 255 (SFmul prec emax t (S754_finite false 8972014882652160 (-45))).
Proof.
  destruct t as [s|s| |[|] mt et]; cbn [below]; try contradiction.
  - intros _. exact I.
  - intros [Het Hmt]. cbn [SFmul xorb].
    apply binary_round_aux_below.
    + split; reflexivity.
    + lia.
    + split; [lia|].
      rewrite Pos2Z.inj_mul.
      replace (- (et + -45)) with (45 + - et) by lia.
      rewrite Z.pow_add_r by lia.
      change (Zpos 8972014882652160) with (255 * 2 ^ 45).
      replace (255 * (2 ^ 45 * 2 ^ (- et))) with (2 ^ (- et) * (255 * 2 ^ 45)) by ring.
      apply Z.mul_le_mono_nonneg_r; [reflexivity||lia|lia].
    + intros C. congruence.
Qed.

Lemma to_int_below (p : float) :
  below 255 (Prim2SF p) -> exists g, PyFloat.to_int p = inr g /\ 0 <= g <= 255.
Proof.
  unfold PyFloat.to_int. destruct (Prim2SF p) as [s|s| |[|] m e]; cbn [below];
    try contradiction.
  - intros _. exists 0. split; [reflexivity|lia].
  - intros [He Hm]. exists (Z.shiftl (Zpos m) e). split; [reflexivity|].
    rewrite <- (Z.opp_involutive e) at 1 2.
    rewrite Z.shiftl_opp_r, Z.shiftr_div_pow2 by lia.
    split.
    + apply Z.div_pos; [lia|apply Z.pow_pos_nonneg; lia].
    + apply Z.div_le_upper_bound; [apply Z.pow_pos_nonneg; lia|].
      rewrite Z.mul_comm. exact Hm.
Qed.

Local Open Scope float_scope.

Lemma valid_count_spec (x : float) : valid_count x -> fin_nonneg (Prim2SF x).
Proof.
  intros [H0 Hinf]. split; [apply Prim2SF_valid|].
  rewrite leb_spec, FloatFacts.Prim2SF_zero in H0.
  rewrite ltb_spec, FloatFacts.Prim2SF_infinity in Hinf.
  destruct (Prim2SF x) as [s|[|]| |[|] m e]; try exact I; discriminate.
Qed.

Lemma positive_finite (m : float) :
  (0 <? m) = true -> fin_nonneg (Prim2SF m) ->
  exists mm em, Prim2SF m = S754_finite false mm em.
Proof.
  intros Hpos [_ Hm]. apply FloatFacts.ltb_zero in Hpos as [H|H]; [exact H|].
  now rewrite H in Hm.
Qed.

Lemma ltb_ival (a y : float) :
  fin_nonneg (Prim2SF a) -> fin_nonneg (Prim2SF y) ->
  (a <? y) = (ival (Prim2SF a) <? ival (Prim2SF y))%Z.
Proof. intros Ha Hy. rewrite ltb_spec. now apply SFltb_ival. Qed.

Lemma fold_max_upper (r : list float) :
  forall x,
    Forall (fun z => fin_nonneg (Prim2SF z)) (x :: r) ->
    forall z, In z (x :: r) ->
      Z.le (ival (Prim2SF z))
           (ival (Prim2SF (fold_left (fun a y => if a <? y then y else a) r x))).
Proof.
  induction r as [|y r IH]; intros x Hall z Hz.
  - destruct Hz as [<-|[]]. simpl. lia.
  - cbn [fold_left].
    inversion Hall as [|? ? Hx Hrest]; subst.
    inversion Hrest as [|? ? Hy Hr]; subst.
    pose proof (ltb_ival x y Hx Hy) as Hlt.
    set (a := if x <? y then y else x) in *.
    assert (Ha : fin_nonneg (Prim2SF a)) by (unfold a; now destruct (x <? y)).
    assert (Hxa : (ival (Prim2SF x) <= ival (Prim2SF a))%Z).
    { unfold a. destruct (x <? y); [|lia]. symmetry in Hlt. apply Z.ltb_lt in Hlt. lia. }
    assert (Hya : (ival (Prim2SF y) <= ival (Prim2SF a))%Z).
    { unfold a. destruct (x <? y); [lia|]. symmetry in Hlt. apply Z.ltb_ge in Hlt. lia. }
    pose proof (IH a (Forall_cons a Ha Hr)) as Hup.
    pose proof (Hup a (or_introl eq_refl)) as Hares.
    destruct Hz as [<-|[<-|Hz]]; try lia.
    apply Hup. now right.
Qed.

Lemma valid_not_nan (x : float) : valid_count x -> is_nan x = false.
Proof.
  intros H. apply valid_count_spec in H as [_ H].
  unfold is_nan. rewrite eqb_spec.
  destruct (Prim2SF x) as [s|s| |s m e] eqn:E; try contradiction;
    now rewrite SFeqb_refl.
Qed.

(** The maximum of valid counts is one of them and none exceeds it. *)
Lemma nanmax_upper (cnts : list float) (c : float) :
  Forall valid_count cnts -> In c cnts ->
  In (PyFloat.nanmax cnts) cnts
  /\ (ival (Prim2SF c) <= ival (Prim2SF (PyFloat.nanmax cnts)))%Z.
Proof.
  intros Hall Hc. unfold PyFloat.nanmax.
  rewrite filter_all
    by (eapply Forall_impl; [|exact Hall]; intros x Hx; simpl;
        now rewrite valid_not_nan).
  destruct cnts as [|x r]; [contradiction|]. split; [apply fold_max_in|].
  apply fold_max_upper; [|exact Hc].
  eapply Forall_impl; [|exact Hall]. intros z. apply valid_count_spec.
Qed.

Lemma color_in_range (max_cnt row_cnt : float) :
  fin_nonneg (Prim2SF row_cnt) -> fin_nonneg (Prim2SF max_cnt) ->
  (0 <? max_cnt) = true ->
  (ival (Prim2SF row_cnt) <= ival (Prim2SF max_cnt))%Z ->
  exists g, get_elevation_and_color max_cnt row_cnt = inr (row_cnt, [255; g; 0]%Z)
            /\ (0 <= g <= 255)%Z.
Proof.
  intros Hc Hm Hpos Hle.
  destruct (positive_finite _ Hpos Hm) as (mm & em & Em).
  assert (Hq : below 1 (Prim2SF (row_cnt / max_cnt))).
  { rewrite div_spec. unfold SF64div. rewrite Em in *.
    destruct Hc as [Vc Hc], Hm as [Vm _].
    destruct (Prim2SF row_cnt) as [s|s| |[|] mc ec]; try contradiction.
    - exact I.
    - now apply SFdiv_below. }
  assert (Ht : below 1 (Prim2SF (1 - row_cnt / max_cnt))).
  { rewrite sub_spec, FloatFacts.Prim2SF_one. now apply SFsub_one_below. }
  assert (Hp : below 255 (Prim2SF ((1 - row_cnt / max_cnt) * 255))).
  { rewrite mul_spec.
    change (Prim2SF 255) with (S754_finite false 8972014882652160 (-45)).
    now apply SFmul_255_below. }
  destruct (to_int_below _ Hp) as (g & Hg & Hrange).
  exists g. split; [|exact Hrange].
  unfold get_elevation_and_color. now rewrite Hg.
Qed.

Lemma valid_counts_in_range (cnts : list float) (c : float) :
  Forall valid_count cnts -> (0 <? PyFloat.nanmax cnts) = true -> In c cnts ->
  exists g,
    get_elevation_and_color (PyFloat.nanmax cnts) c = inr (c, [255; g; 0]%Z)
    /\ (0 <= g <= 255)%Z.
Proof.
  intros Hall Hpos Hc.
  destruct (nanmax_upper cnts c Hall Hc) as [Hin Hle].
  rewrite Forall_forall in Hall.
  apply color_in_range; try assumption; apply valid_count_spec, Hall; assumption.
Qed.

(** X20.  Counts that are finite and not negative always get a colour: when
    the maximum is positive, the derivation of every row returns its count as
    elevation and a colour [[255, g, 0]] whose green channel lies between 0
    and 255.  (Division, subtraction and product are the rounded binary64
    operations.) *)
Theorem valid_counts_colored (cnts : list float) (c : float) :
  Forall valid_count cnts -> (0 <? PyFloat.nanmax cnts) = true -> In c cnts ->
  exists g,
    get_elevation_and_color (PyFloat.nanmax cnts) c = inr (c, [255; g; 0]%Z)
    /\ (0 <= g <= 255)%Z.
Proof.
  intros Hall Hpos Hc.
  destruct (nanmax_upper cnts c Hall Hc) as [_ Hle].
  pose proof (proj1 (Forall_forall _ _) Hall) as Hvalid.
  apply color_in_range; try assumption.
  - apply valid_count_spec, Hvalid, Hc.
  - apply valid_count_spec, Hvalid. now apply (nanmax_upper cnts c).
Qed.

Lemma valid_counts_colored_witness :
  exists g, get_elevation_and_color 10 5 = inr (5, [255; g; 0]%Z) /\ (0 <= g <= 255)%Z.
Proof.
  apply (valid_counts_colored [10; 5] 5).
  - repeat constructor.
  - reflexivity.
  - right. now left.
Defined.

Lemma traverse_colored (max_cnt : float) (cnts : list float) :
  (forall c, In c cnts ->
     exists g, get_elevation_and_color max_cnt c = inr (c, [255; g; 0]%Z)
               /\ (0 <= g <= 255)%Z) ->
  exists (results : list (float * list Z)) (greens : list Z),
    traverse (get_elevation_and_color max_cnt) cnts = inr results
    /\ map fst results = cnts
    /\ map snd results = map (fun g => [255; g; 0]%Z) greens
    /\ Forall (fun g => (0 <= g <= 255)%Z) greens
    /\ List.length greens = List.length cnts.
Proof.
  induction cnts as [|c r IH]; intros H.
  - exists [], []. repeat split; constructor.
  - destruct (H c (or_introl eq_refl)) as (g & Hg & Hrange).
    destruct IH as (results & greens & Ht & Hf & Hs & Hall & Hlen);
      [intros x Hx; apply H; now right|].
    exists ((c, [255; g; 0]%Z) :: results), (g :: greens).
    cbn [traverse]. rewrite Hg, Ht. cbn [map fst snd List.length].
    rewrite Hf, Hs, Hlen. repeat split. now constructor.
Qed.

(** X21.  A table with the columns [cell_id] and [cnt] whose counts are
    finite, not negative and not all zero is always processed: the result
    has the counts as elevations and one colour [[255, g, 0]] per row, every
    green channel between 0 and 255. *)
Theorem valid_table_processed (w : World) (data : DataFrame) (ids raw : list cell)
  (cnts : list float) :
  dict_get data "cell_id" = Some ids ->
  dict_get data "cnt" = Some raw ->
  traverse (astype_float w) raw = inr cnts ->
  Forall valid_count cnts ->
  (0 <? PyFloat.nanmax cnts) = true ->
  exists (data' : DataFrame) (greens : list Z),
    process_data w data = inr data'
    /\ dict_get data' "elevation" = Some (map CFloat cnts)
    /\ dict_get data' "color" = Some (map (fun g => CList [255; g; 0]%Z) greens)
    /\ List.length greens = List.length cnts
    /\ Forall (fun g => (0 <= g <= 255)%Z) greens.
Proof.
  intros Hid Hcnt Hconv Hall Hpos.
  destruct (traverse_colored (PyFloat.nanmax cnts) cnts)
    as (results & greens & Ht & Hf & Hs & Hrange & Hlen);
    [intros c Hc; now apply valid_counts_in_range|].
  assert (Hne : results <> []).
  { intros ->. simpl in Hf. subst cnts. discriminate Hpos. }
  unfold process_data, column. rewrite Hid. cbn [bindE].
  rewrite dict_get_set_other by reflexivity. rewrite Hcnt. cbn [bindE].
  rewrite Hconv. cbn [bindE]. rewrite Ht. cbn [bindE].
  destruct results as [|r0 rs]; [contradiction|]. cbn [unzip_results bindE fst snd].
  eexists _, greens. split; [reflexivity|]. repeat split; try assumption.
  - rewrite dict_get_set_other by reflexivity. rewrite dict_get_set_same.
    now rewrite <- Hf, map_map.
  - rewrite dict_get_set_same.
    now rewrite <- (map_map snd CList), Hs, map_map.
Qed.

Lemma valid_table_processed_witness :
  exists (data' : DataFrame) (greens : list Z),
    process_data sample_world sample_frame = inr data'
    /\ dict_get data' "elevation" = Some (map CFloat [PyFloat.of_Z 10; PyFloat.of_Z 5])
    /\ dict_get data' "color" = Some (map (fun g => CList [255; g; 0]%Z) greens)
    /\ List.length greens = 2%nat
    /\ Forall (fun g => (0 <= g <= 255)%Z) greens.
Proof.
  apply (valid_table_processed sample_world sample_frame
           [CStr "ABC123"; CStr "DEF456"] [CInt 10; CInt 5]
           [PyFloat.of_Z 10; PyFloat.of_Z 5] eq_refl eq_refl eq_refl).
  - repeat constructor.
  - reflexivity.
Defined.

Local Close Scope float_scope.

(* ================================================================== *)
(** * The view on a single venue *)
(* ================================================================== *)

Lemma digits2_double (m : positive) : digits2_pos m~0 = Pos.succ (digits2_pos m).
Proof. reflexivity. Qed.

Lemma SFdiv_one (s : bool) (m : positive) (e : Z) :
  valid_binary (S754_finite s m e) = true ->
  SFdiv prec emax (S754_finite s m e) (S754_finite false 4503599627370496 (-52))
  = S754_finite s m e.
Proof.
  intros V. pose proof (valid_finite _ _ _ V) as (Re & Dm & Nm).
  assert (C : fexp prec emax (Zpos (digits2_pos m) + e) = e).
  { unfold SpecFloat.valid_binary, bounded, canonical_mantissa in V.
    apply andb_true_iff in V as [V _]. now apply Z.eqb_eq in V. }
  unfold SFdiv, SFdiv_core_binary. rewrite xorb_false_r.
  cbn [Zdigits2]. change (Zpos (digits2_pos 4503599627370496)) with 53.
  destruct (Z.eq_dec e (-1074)) as [->|Hn].
  - replace (Z.min (fexp prec emax (Zpos (digits2_pos m) + -1074 - (53 + -52)))
               (-1074 - -52)) with (-1074)
      by (unfold fexp, SpecFloat.emin, prec, emax; lia).
    change (-1074 - -52 - -1074) with 52.
    rewrite Z.shiftl_mul_pow2 by lia.
    rewrite FloatFacts.div_eucl_exact by discriminate.
    cbn [new_location new_location_even Z.even Z.eqb].
    unfold binary_round_aux, shr_fexp. cbn [Zdigits2]. rewrite C.
    rewrite Z.sub_diag. cbn [shr shr_record_of_loc shr_m loc_of_shr_record round_nearest_even].
    cbn [Zdigits2]. rewrite C, Z.sub_diag.
    cbn [shr shr_record_of_loc shr_m]. reflexivity.
  - specialize (Nm ltac:(lia)).
    replace (Z.min (fexp prec emax (Zpos (digits2_pos m) + e - (53 + -52))) (e - -52))
      with (e - 1)
      by (unfold fexp, SpecFloat.emin, prec, emax; lia).
    replace (e - -52 - (e - 1)) with 53 by lia.
    rewrite Z.shiftl_mul_pow2 by lia.
    replace (Zpos m * 2 ^ 53) with (Zpos m~0 * 4503599627370496)
      by (change (2 ^ 53) with (2 * 4503599627370496); lia).
    rewrite FloatFacts.div_eucl_exact by discriminate.
    cbn [new_location new_location_even Z.even Z.eqb].
    unfold binary_round_aux, shr_fexp. cbn [Zdigits2]. rewrite digits2_double, Pos2Z.inj_succ.
    replace (fexp prec emax (Z.succ (Zpos (digits2_pos m)) + (e - 1)) - (e - 1)) with 1
      by (unfold fexp, SpecFloat.emin, prec, emax; lia).
    cbn [shr shr_record_of_loc iter_pos shr_1 orb shr_m loc_of_shr_record round_nearest_even].
    replace (e - 1 + 1) with e by lia.
    cbn [Zdigits2]. rewrite C, Z.sub_diag.
    cbn [shr shr_record_of_loc shr_m].
    replace (e <=? emax - prec) with true
      by (symmetry; apply Z.leb_le; unfold emax, prec; lia).
    reflexivity.
Qed.

Local Open Scope float_scope.

Lemma proper_coordinate_spec (x : float) :
  proper_coordinate x = true -> exists s m e, Prim2SF x = S754_finite s m e.
Proof.
  unfold proper_coordinate, is_finite, is_nan, is_infinity, is_zero.
  rewrite !eqb_spec, abs_spec.
  change (Prim2SF infinity) with (S754_infinity false).
  change (Prim2SF zero) with (S754_zero false).
  destruct (Prim2SF x) as [s|s| |s m e]; cbn; intros H; try discriminate H.
  - destruct s; discriminate H.
  - now exists s, m, e.
Qed.

(** The mean of one finite non-zero number is that number. *)
Lemma mean_single (np_sum : list float -> float) (x : float) :
  proper_coordinate x = true -> PyFloat.mean np_sum [x] = x.
Proof.
  intros H. destruct (proper_coordinate_spec x H) as (s & m & e & Ex).
  assert (Hn : is_nan x = false).
  { unfold is_nan. rewrite eqb_spec, SFeqb_refl; [reflexivity|]. now rewrite Ex. }
  unfold PyFloat.mean. cbn [filter map List.length Nat.ltb Nat.leb]. rewrite Hn.
  cbn [negb fold_left List.length].
  change (PyFloat.of_Z (Z.of_nat 1)) with 1.
  assert (E0 : zero + x = x).
  { apply Prim2SF_inj. rewrite add_spec, Ex. reflexivity. }
  rewrite E0. apply Prim2SF_inj.
  rewrite div_spec, FloatFacts.Prim2SF_one, Ex. unfold SF64div.
  apply SFdiv_one. rewrite <- Ex. apply Prim2SF_valid.
Qed.

Local Close Scope float_scope.

Lemma filter_no_name (stadium_data : list VenueRecord) (name : string) :
  ~ In name (map Nom_Site stadium_data) ->
  filter (fun u => isin [name] (Nom_Site u)) stadium_data = [].
Proof.
  induction stadium_data as [|u r IH]; intros Hnot; simpl in *; [reflexivity|].
  destruct (String.eqb_spec (Nom_Site u) name) as [E|_]; [tauto|].
  simpl. apply IH. tauto.
Qed.

Lemma filter_one_name (stadium_data : list VenueRecord) (v : VenueRecord) :
  NoDup (map Nom_Site stadium_data) -> In v stadium_data ->
  filter (fun u => isin [Nom_Site v] (Nom_Site u)) stadium_data = [v].
Proof.
  induction stadium_data as [|u r IH]; intros Hnd Hin; [contradiction|].
  cbn [map] in Hnd. apply NoDup_cons_iff in Hnd as [Hu Hr].
  cbn [filter isin existsb]. destruct Hin as [->|Hin].
  - rewrite String.eqb_refl. cbn [orb]. f_equal. now apply filter_no_name.
  - destruct (String.eqb_spec (Nom_Site u) (Nom_Site v)) as [E|_].
    + elim Hu. rewrite E. now apply in_map.
    + cbn [orb]. now apply IH.
Qed.

(** X22.  With a single venue selected, in a table whose names do not
    repeat, the scatter layer holds that venue alone and the view is centred
    on it, at zoom 11 and pitch 20 (the coordinates being finite and not
    zero). *)
Theorem single_venue_view (w : World) (stadium_data : list VenueRecord)
  (v : VenueRecord) (data : DataFrame) (layer : HexLayer)
  (scatter_layer : ScatterLayer) (view_state : ViewState) :
  NoDup (map Nom_Site stadium_data) ->
  In v stadium_data ->
  proper_coordinate (latitude v) = true ->
  proper_coordinate (longitude v) = true ->
  build_layers w stadium_data [Nom_Site v] data = inr (layer, scatter_layer, view_state) ->
  scatter_data scatter_layer = [v]
  /\ view_state = {| vs_latitude := latitude v; vs_longitude := longitude v;
                     zoom := 11; pitch := 20 |}.
Proof.
  intros Hnd Hin Hlat Hlon. unfold build_layers.
  destruct (process_data w data) as [e|d]; cbn [bindE]; [discriminate|].
  rewrite (filter_one_name _ _ Hnd Hin). cbn [map].
  rewrite (mean_single _ _ Hlat), (mean_single _ _ Hlon).
  intros [= _ <- <-]. split; reflexivity.
Qed.

Lemma single_venue_view_witness :
  [stade_a] = [stade_a]
  /\ {| vs_latitude := 48.5%float; vs_longitude := 2.25%float; zoom := 11; pitch := 20 |}
     = {| vs_latitude := latitude stade_a; vs_longitude := longitude stade_a;
          zoom := 11; pitch := 20 |}.
Proof.
  assert (H : build_layers sample_world [stade_a] [Nom_Site stade_a] sample_frame
              = inr ({| hex_data := processed_sample; hex_pickable := true;
                        hex_stroked := true; hex_filled := true;
                        hex_extruded := true; get_hexagon := "cell_id";
                        get_fill_color := "color"; get_elevation := "elevation";
                        elevation_scale := 20 |},
                     {| scatter_data := [stade_a];
                        get_position := ["longitude"; "latitude"];
                        get_color := [200; 30; 0; 160]; get_radius := 200;
                        scatter_pickable := true |},
                     {| vs_latitude := 48.5%float; vs_longitude := 2.25%float;
                        zoom := 11; pitch := 20 |}))
    by (vm_compute; reflexivity).
  refine (single_venue_view sample_world [stade_a] stade_a sample_frame _ _ _ _ _ _ _ H).
  - repeat constructor. simpl. tauto.
  - now left.
  - reflexivity.
  - reflexivity.
Defined.

Lemma lookup_code_of_row (stadium_data : list VenueRecord) (v : VenueRecord) :
  NoDup (map Nom_Site stadium_data) -> In v stadium_data ->
  lookup_code (name_to_code_of stadium_data) (Nom_Site v) = inr (Code_Site v).
Proof.
  intros Hnd Hin. apply in_split in Hin as (pre & post & ->).
  unfold lookup_code, name_to_code_of.
  rewrite fold_left_app. cbn [fold_left].
  rewrite name_to_code_fold_other, dict_get_set_same; [reflexivity|].
  rewrite map_app in Hnd. cbn [map] in Hnd.
  apply NoDup_remove_2 in Hnd. intros H. apply Hnd, in_or_app. now right.
Qed.

Lemma lookup_codes_of_rows (stadium_data venues : list VenueRecord) :
  NoDup (map Nom_Site stadium_data) -> incl venues stadium_data ->
  traverse (lookup_code (name_to_code_of stadium_data)) (map Nom_Site venues)
  = inr (map Code_Site venues).
Proof.
  intros Hnd. induction venues as [|v r IH]; intros Hincl; [reflexivity|].
  cbn [map traverse].
  rewrite (lookup_code_of_row _ _ Hnd (Hincl v (or_introl eq_refl))).
  rewrite IH by (intros x Hx; apply Hincl; now right). reflexivity.
Qed.

(** X23.  A press of the button asks for the venues that are selected: when
    the names of the table do not repeat, the one request of the run carries,
    after the five scalar parameters, the code of each selected venue under
    [stadium_codes[i]], in the order of the selection, and the codes are
    announced first. *)
Theorem request_carries_selection (w : World) (ui : Inputs)
  (stadium_data venues : list VenueRecord) (log : list event) :
  venue_table w = inr stadium_data ->
  NoDup (map Nom_Site stadium_data) ->
  incl venues stadium_data ->
  selected_stadiums ui = map Nom_Site venues ->
  button ui = true ->
  exists shown rest,
    main w ui log
    = (inr tt,
       (log ++ shown
            ++ [StWrite (fetching_msg (map Code_Site venues));
                HttpGet FUSED_API_URL
                  (base_params (travel_time ui) (travel_mode ui) 11
                   ++ indexed_from 0 (map Code_Site venues))]
            ++ rest)%list)
    /\ requests_in shown = 0%nat.
Proof.
  intros Htable Hnd Hincl Hsel Hbutton.
  unfold main, load_stadium_data, bind, emit, lift, ret.
  rewrite Htable, Hbutton, Hsel, (lookup_codes_of_rows _ _ Hnd Hincl).
  rewrite <- query_params_app.
  destruct (map Nom_Site venues);
    match goal with
    | |- context [cycle ?w ?sd ?u ?c ?l] =>
        destruct (cycle_sends w sd u c l) as (rest & ->)
    end; rewrite <- !app_assoc.
  - exists [StTitle title_msg; StSidebarHeader "Parameters"], rest.
    split; reflexivity.
  - exists [StTitle title_msg; StSidebarHeader "Parameters";
            StSubheader "Selected Stadiums"], rest.
    split; reflexivity.
Qed.

Lemma request_carries_selection_witness :
  exists shown rest,
    main sample_world (inputs_of ["Stade A"]) []
    = (inr tt,
       (shown
          ++ [StWrite "Fetching data for stadium codes: STA";
              HttpGet FUSED_API_URL
                (base_params 5 "auto" 11 ++ [("stadium_codes[0]", PStr "STA")])]
          ++ rest)%list)
    /\ requests_in shown = 0%nat.
Proof.
  apply (request_carries_selection sample_world (inputs_of ["Stade A"])
           [stade_a] [stade_a] [] eq_refl).
  - repeat constructor. simpl. tauto.
  - intros x Hx. exact Hx.
  - reflexivity.
  - reflexivity.
Defined.
